(** * Survey submission, quality metrics and match polling

    A shallow embedding of [src/lib/supabase/submit-form.ts] and of the
    polling effect of the [SurveyForm] component.

    JavaScript numbers are IEEE 754 binary64 values; they are modelled by
    Rocq's primitive floats, which are the same format, so every arithmetic
    expression of the source is evaluated bit for bit. *)

From Stdlib Require Import ZArith QArith Qabs List String Bool Lia.
From Stdlib Require Import PrimFloat Uint63 FloatOps SpecFloat.
From Stdlib Require Import Sorted Permutation.
Import ListNotations.

Open Scope string_scope.
Open Scope list_scope.
Open Scope Z_scope.

(** ** JavaScript numbers and values *)

Definition number := float.

(** The number denoted by an integer literal or an integer-valued counter. *)
Definition Z2f (k : Z) : number := PrimFloat.of_uint63 (Uint63.of_Z k).
Definition N2f (n : nat) : number := Z2f (Z.of_nat n).

(** Exact rational value of a finite number (0 for NaN and infinities). *)
Definition F2Q (x : number) : Q :=
  match Prim2SF x with
  | S754_finite s m e =>
      Qred (inject_Z (if s then Z.neg m else Z.pos m) * Qpower 2 e)
  | _ => 0%Q
  end.

Definition is_finite (x : number) : bool :=
  match Prim2SF x with
  | S754_zero _ | S754_finite _ _ _ => true
  | _ => false
  end.

(** [rounds_to r q]: [r] is a finite double within one unit roundoff
    (relative error 2^-53) of the rational [q]; this is what one IEEE
    operation with an exact operand pair guarantees, and nothing coarser
    (no rounding to an integer or to a fixed number of decimals). *)
Definition rounds_to (r : number) (q : Q) : Prop :=
  is_finite r = true /\
  (Qabs (F2Q r - q) <= Qabs q * (1 # 9007199254740992))%Q.

Inductive JSValue :=
| JSUndefined
| JSNull
| JSBoolean (b : bool)
| JSNumber (x : number)
| JSString (s : string)
| JSArray (l : list string).

(** Truthiness, as used by [if (v)] and [!v]. *)
Definition ToBoolean (v : JSValue) : bool :=
  match v with
  | JSUndefined | JSNull => false
  | JSBoolean b => b
  | JSNumber x => negb (PrimFloat.eqb x 0 || PrimFloat.is_nan x)
  | JSString s => negb (String.eqb s "")
  | JSArray _ => true
  end.

(** [typeof val === 'string'] *)
Definition typeof_string (val : JSValue) : bool :=
  match val with JSString _ => true | _ => false end.

(** [s.length] (one [ascii] stands for one code unit). *)
Definition js_length (s : string) : number := N2f (String.length s).

(** [(val as string).length]; the cast is unchecked, but only strings reach
    it, after the [typeof] filter. *)
Definition length_of (val : JSValue) : number :=
  match val with
  | JSString s => js_length s
  | JSArray l => N2f (List.length l)
  | _ => PrimFloat.nan
  end.

(** An object literal: its own properties in insertion order. *)
Definition JSObject := list (string * JSValue).

Definition Object_values (o : JSObject) : list JSValue := map snd o.

Definition get (o : JSObject) (key : string) : JSValue :=
  match find (fun kv => String.eqb (fst kv) key) o with
  | Some kv => snd kv
  | None => JSUndefined
  end.

(** ** The survey response *)

Module FormData.
Record t := {
  (* Contact info *)
  email : string;
  firstName : string;
  lastName : string;
  age : option number;
  phone : string;
  preferredTimes : list string;
  socialLinks : string;
  (* Free text responses *)
  jobCareer : string;
  lifeAchievements : string;
  dreamBuilding : string;
  communitySpace : string;
  coreValues : string;
  qualitiesSeek : string;
  dealBreakers : string;
  skillsAbilities : string;
  (* Core Likert scales *)
  startVillage : number;
  spirituality : number;
  ambition : number;
  familyOrientation : number;
  wealthOrientation : number;
  teamwork : number;
  agency : number;
  preparedness : number;
  locationFreedom : number;
  existingCommunity : number;
  empathy : number;
  (* Community interests *)
  offGridVillage : number;
  nomadicTribe : number;
  businessStartup : number;
  wellnessCenter : number;
  spiritualCenter : number;
  techHub : number;
  startupNation : number
}.

(** The response seen as an object, for [formData[field]]. *)
Definition entries (formData : t) : JSObject :=
  [ ("email", JSString (email formData));
    ("firstName", JSString (firstName formData));
    ("lastName", JSString (lastName formData));
    ("age", match age formData with Some a => JSNumber a | None => JSNull end);
    ("phone", JSString (phone formData));
    ("preferredTimes", JSArray (preferredTimes formData));
    ("socialLinks", JSString (socialLinks formData));
    ("jobCareer", JSString (jobCareer formData));
    ("lifeAchievements", JSString (lifeAchievements formData));
    ("dreamBuilding", JSString (dreamBuilding formData));
    ("communitySpace", JSString (communitySpace formData));
    ("coreValues", JSString (coreValues formData));
    ("qualitiesSeek", JSString (qualitiesSeek formData));
    ("dealBreakers", JSString (dealBreakers formData));
    ("skillsAbilities", JSString (skillsAbilities formData));
    ("startVillage", JSNumber (startVillage formData));
    ("spirituality", JSNumber (spirituality formData));
    ("ambition", JSNumber (ambition formData));
    ("familyOrientation", JSNumber (familyOrientation formData));
    ("wealthOrientation", JSNumber (wealthOrientation formData));
    ("teamwork", JSNumber (teamwork formData));
    ("agency", JSNumber (agency formData));
    ("preparedness", JSNumber (preparedness formData));
    ("locationFreedom", JSNumber (locationFreedom formData));
    ("existingCommunity", JSNumber (existingCommunity formData));
    ("empathy", JSNumber (empathy formData));
    ("offGridVillage", JSNumber (offGridVillage formData));
    ("nomadicTribe", JSNumber (nomadicTribe formData));
    ("businessStartup", JSNumber (businessStartup formData));
    ("wellnessCenter", JSNumber (wellnessCenter formData));
    ("spiritualCenter", JSNumber (spiritualCenter formData));
    ("techHub", JSNumber (techHub formData));
    ("startupNation", JSNumber (startupNation formData)) ].
End FormData.

(** [mcResponses]: all Likert scales under their stored names. *)
Module Mc.
Record t := {
  start_village : number;
  spirituality : number;
  ambition : number;
  family_orientation : number;
  wealth_orientation : number;
  teamwork : number;
  agency : number;
  preparedness : number;
  location_freedom : number;
  existing_community : number;
  empathy : number;
  interest_off_grid : number;
  interest_nomadic : number;
  interest_business : number;
  interest_wellness : number;
  interest_spiritual : number;
  interest_tech_hub : number;
  interest_startup_nation : number
}.
End Mc.

Module Attr.
Record t := {
  (* Vision attributes *)
  seeks_new_community : number;
  seeks_high_tech : number;
  seeks_return_to_land : number;
  seeks_entrepreneurship : number;
  seeks_spiritual_community : number;
  seeks_health_fitness : number;
  seeks_travel : number;
  seeks_breakaway_society : number;
  (* Values attributes *)
  ambitious : number;
  wealth_oriented : number;
  family_oriented : number;
  teamwork_oriented : number;
  religious : number;
  (* Maturity and resources *)
  high_agency : number;
  high_skills : number;
  high_empathy : number;
  high_location_freedom : number;
  high_resources : number;
  (* Derived scores *)
  readiness_score : number;
  community_interest_avg : number
}.
End Attr.

Module Quality.
Record t := {
  completeness : number;
  response_length_avg : number;
  consistency_score : number
}.
End Quality.

(** ** The pure part of [submitUserForm] *)

Definition mcResponses (formData : FormData.t) : Mc.t :=
  {| Mc.start_village := FormData.startVillage formData;
     Mc.spirituality := FormData.spirituality formData;
     Mc.ambition := FormData.ambition formData;
     Mc.family_orientation := FormData.familyOrientation formData;
     Mc.wealth_orientation := FormData.wealthOrientation formData;
     Mc.teamwork := FormData.teamwork formData;
     Mc.agency := FormData.agency formData;
     Mc.preparedness := FormData.preparedness formData;
     Mc.location_freedom := FormData.locationFreedom formData;
     Mc.existing_community := FormData.existingCommunity formData;
     Mc.empathy := FormData.empathy formData;
     Mc.interest_off_grid := FormData.offGridVillage formData;
     Mc.interest_nomadic := FormData.nomadicTribe formData;
     Mc.interest_business := FormData.businessStartup formData;
     Mc.interest_wellness := FormData.wellnessCenter formData;
     Mc.interest_spiritual := FormData.spiritualCenter formData;
     Mc.interest_tech_hub := FormData.techHub formData;
     Mc.interest_startup_nation := FormData.startupNation formData |}.

Definition freeResponses (formData : FormData.t) : JSObject :=
  [ ("job_career", JSString (FormData.jobCareer formData));
    ("life_achievements", JSString (FormData.lifeAchievements formData));
    ("dream_building", JSString (FormData.dreamBuilding formData));
    ("community_space", JSString (FormData.communitySpace formData));
    ("core_values", JSString (FormData.coreValues formData));
    ("qualities_seek", JSString (FormData.qualitiesSeek formData));
    ("deal_breakers", JSString (FormData.dealBreakers formData));
    ("skills_abilities", JSString (FormData.skillsAbilities formData)) ].

Definition attributeScores (formData : FormData.t) : Attr.t :=
  {| Attr.seeks_new_community := FormData.startVillage formData;
     Attr.seeks_high_tech := FormData.techHub formData;
     Attr.seeks_return_to_land := FormData.offGridVillage formData;
     Attr.seeks_entrepreneurship := FormData.businessStartup formData;
     Attr.seeks_spiritual_community := FormData.spiritualCenter formData;
     Attr.seeks_health_fitness := FormData.wellnessCenter formData;
     Attr.seeks_travel := FormData.nomadicTribe formData;
     Attr.seeks_breakaway_society := FormData.startupNation formData;
     Attr.ambitious := FormData.ambition formData;
     Attr.wealth_oriented := FormData.wealthOrientation formData;
     Attr.family_oriented := FormData.familyOrientation formData;
     Attr.teamwork_oriented := FormData.teamwork formData;
     Attr.religious := FormData.spirituality formData;
     Attr.high_agency := FormData.agency formData;
     Attr.high_skills := FormData.preparedness formData;
     Attr.high_empathy := FormData.empathy formData;
     Attr.high_location_freedom := FormData.locationFreedom formData;
     Attr.high_resources := FormData.existingCommunity formData;
     Attr.readiness_score :=
       ((FormData.agency formData + FormData.preparedness formData
         + FormData.locationFreedom formData) / 3)%float;
     Attr.community_interest_avg :=
       ((FormData.offGridVillage formData
         + FormData.nomadicTribe formData
         + FormData.businessStartup formData
         + FormData.wellnessCenter formData
         + FormData.spiritualCenter formData
         + FormData.techHub formData
         + FormData.startupNation formData) / 7)%float |}.

(** Helper function to calculate form completeness *)
Definition requiredFields : list string :=
  [ "email"; "firstName"; "lastName"; "jobCareer";
    "lifeAchievements"; "dreamBuilding"; "communitySpace";
    "coreValues"; "qualitiesSeek"; "dealBreakers"; "skillsAbilities" ].

Definition calculateCompleteness (formData : FormData.t) : number :=
  let filledCount :=
    fold_left
      (fun (filledCount : number) field =>
         if ToBoolean (get (FormData.entries formData) field)
         then (filledCount + 1)%float else filledCount)
      requiredFields 0%float in
  (filledCount / N2f (List.length requiredFields) * 100)%float.

(** Helper function to calculate average response length *)
Definition calculateAvgResponseLength (freeResponses : JSObject) : number :=
  let lengths :=
    map length_of (filter typeof_string (Object_values freeResponses)) in
  if Nat.eqb (List.length lengths) 0 then 0%float
  else (fold_left PrimFloat.add lengths 0 / N2f (List.length lengths))%float.

(** Helper function to check consistency in responses *)
Definition calculateConsistency (mcResponses : Mc.t) : number :=
  let consistencyChecks :=
    [ (abs (Mc.start_village mcResponses - Mc.interest_off_grid mcResponses) <=? 3)%float;
      (abs (Mc.spirituality mcResponses - Mc.interest_spiritual mcResponses) <=? 3)%float;
      (abs (Mc.ambition mcResponses - Mc.interest_business mcResponses) <=? 3)%float ] in
  let passedChecks := List.length (filter (fun check => check) consistencyChecks) in
  (N2f passedChecks / N2f (List.length consistencyChecks) * 100)%float.

(** ** The record store (external collaborator)

    Table [test_users_pool_1] behind the Supabase client.  A request either
    is answered from the table or is rejected with the store's error. *)

Definition Timestamp := Z. (* milliseconds since the epoch, what [toISOString] renders *)
Definition uuid := nat.

Module FormResponses.
Record t := {
  preferred_times : list string;
  mc : Mc.t;              (* ...mcResponses *)
  free : JSObject;        (* ...freeResponses *)
  survey_version : number;
  submitted_at : Timestamp
}.
End FormResponses.

Module UserData.
Record t := {
  email : string;
  first_name : string;
  last_name : string;
  age : option number;
  phone : string;
  social_links : string;
  form_responses : FormResponses.t;
  mc_responses : Mc.t;
  free_responses : JSObject;
  attribute_scores : Attr.t;
  quality_metrics : Quality.t;
  quality_status : string;
  should_match : bool;
  status : string;
  is_synthetic : bool;
  created_at : Timestamp;
  updated_at : Timestamp
}.
End UserData.

(** The match envelope read back by the form ([MatchData] of MatchDisplay). *)
Module MatchData.
Record Match := {
  name : string;
  email : string;
  score : number;
  user_id : string;
  shared_interests : list string
}.
Record t := {
  matches : list Match;
  calculated_at : string;
  above_threshold : number;
  total_evaluated : number;
  algorithm_version : string
}.
End MatchData.

Record Row := {
  id : uuid;
  data : UserData.t;
  user_matches : option MatchData.t
}.

Record PostgrestError := {
  message : string;
  details : string;
  hint : string;
  code : string
}.

Record Store := {
  table : list Row;
  fault : option PostgrestError;   (* the store is unavailable or rejects requests *)
  next_id : uuid
}.

Inductive Request :=
| Insert
| SelectById (userId : uuid)
| SelectRealUsers
| SelectMatchable.

Inductive Event :=
| console_log (msg : string)
| console_error (msg : string)
| alert (msg : string)
| setTimeout (delay : Z)
| request (r : Request).

(** What a caller can observe and what the code reads from outside. *)
Record World := {
  db : Store;
  clock : nat -> Timestamp;   (* the n-th [new Date()] *)
  dates : nat;                (* how many were taken *)
  trace : list Event          (* most recent first *)
}.

Inductive Thrown :=
| Error (msg : string)
| Rejected (error : PostgrestError).

Inductive Completion (A : Type) :=
| Normal (a : A)
| Throw (e : Thrown).
Arguments Normal {A} a.
Arguments Throw {A} e.

Definition M (A : Type) := World -> Completion A * World.

Definition ret {A} (a : A) : M A := fun w => (Normal a, w).
Definition throw {A} (e : Thrown) : M A := fun w => (Throw e, w).
Definition bind {A B} (c : M A) (k : A -> M B) : M B :=
  fun w => match c w with
           | (Normal a, w') => k a w'
           | (Throw e, w') => (Throw e, w')
           end.
Definition try_catch {A} (body : M A) (handler : Thrown -> M A) : M A :=
  fun w => match body w with
           | (Normal a, w') => (Normal a, w')
           | (Throw e, w') => handler e w'
           end.

Notation "x <- c ;; k" := (bind c (fun x => k))
  (at level 61, c at next level, right associativity).
Notation "c ;;; k" := (bind c (fun _ => k))
  (at level 61, right associativity).

Definition emit (e : Event) : M unit :=
  fun w => (Normal tt,
            {| db := db w; clock := clock w; dates := dates w; trace := e :: trace w |}).

Definition new_Date : M Timestamp :=
  fun w => (Normal (clock w (dates w)),
            {| db := db w; clock := clock w; dates := S (dates w); trace := trace w |}).

Definition set_db (s : Store) (w : World) : World :=
  {| db := s; clock := clock w; dates := dates w; trace := trace w |}.

(** [.insert([userData]).select().single()] *)
Definition store_insert (userData : UserData.t) (s : Store) : (Row + PostgrestError) * Store :=
  match fault s with
  | Some error => (inr error, s)
  | None =>
      let row := {| id := next_id s; data := userData; user_matches := None |} in
      (inl row, {| table := table s ++ [row]; fault := None; next_id := S (next_id s) |})
  end.

Definition insert_single (userData : UserData.t) : M (Row + PostgrestError) :=
  emit (request Insert) ;;;
  fun w => let (res, s) := store_insert userData (db w) in (Normal res, set_db s w).

(** [.order('created_at', { ascending })] *)
Definition created_at_le (ascending : bool) (r1 r2 : Row) : bool :=
  if ascending
  then UserData.created_at (data r1) <=? UserData.created_at (data r2)
  else UserData.created_at (data r2) <=? UserData.created_at (data r1).

Definition created_before (ascending : bool) (r1 r2 : Row) : Prop :=
  created_at_le ascending r1 r2 = true.

Fixpoint insert_ordered (ascending : bool) (r : Row) (l : list Row) : list Row :=
  match l with
  | [] => [r]
  | x :: l' => if created_at_le ascending r x then r :: l
               else x :: insert_ordered ascending r l'
  end.

Definition order_created_at (ascending : bool) (l : list Row) : list Row :=
  fold_right (insert_ordered ascending) [] l.

(** [.select('*')] with [.eq] filters and an [.order] clause *)
Definition store_select (eqs : Row -> bool) (ascending : bool) (s : Store)
  : list Row + PostgrestError :=
  match fault s with
  | Some error => inr error
  | None => inl (order_created_at ascending (filter eqs (table s)))
  end.

Definition select_ordered (req : Request) (eqs : Row -> bool) (ascending : bool)
  : M (list Row + PostgrestError) :=
  emit (request req) ;;;
  fun w => (Normal (store_select eqs ascending (db w)), w).

(** [.select('*').eq('id', userId).single()]: anything but one row is an error *)
Definition no_single_row : PostgrestError :=
  {| message := "JSON object requested, multiple (or no) rows returned";
     details := ""; hint := ""; code := "PGRST116" |}.

Definition store_single (userId : uuid) (s : Store) : Row + PostgrestError :=
  match fault s with
  | Some error => inr error
  | None =>
      match filter (fun r => Nat.eqb (id r) userId) (table s) with
      | [row] => inl row
      | _ => inr no_single_row
      end
  end.

Definition select_single (userId : uuid) : M (Row + PostgrestError) :=
  emit (request (SelectById userId)) ;;;
  fun w => (Normal (store_single userId (db w)), w).

(** ** [submitUserForm] and the queries *)

Definition submitUserForm (formData : FormData.t) : M Row :=
  try_catch
    (let mcResponses := mcResponses formData in
     let freeResponses := freeResponses formData in
     submitted_at <- new_Date ;;
     let formResponses :=
       {| FormResponses.preferred_times := FormData.preferredTimes formData;
          FormResponses.mc := mcResponses;
          FormResponses.free := freeResponses;
          FormResponses.survey_version := 2%float;
          FormResponses.submitted_at := submitted_at |} in
     let attributeScores := attributeScores formData in
     created_at <- new_Date ;;
     updated_at <- new_Date ;;
     let userData :=
       {| UserData.email := FormData.email formData;
          UserData.first_name := FormData.firstName formData;
          UserData.last_name := FormData.lastName formData;
          UserData.age := FormData.age formData;
          UserData.phone := FormData.phone formData;
          UserData.social_links := FormData.socialLinks formData;
          UserData.form_responses := formResponses;
          UserData.mc_responses := mcResponses;
          UserData.free_responses := freeResponses;
          UserData.attribute_scores := attributeScores;
          UserData.quality_metrics :=
            {| Quality.completeness := calculateCompleteness formData;
               Quality.response_length_avg := calculateAvgResponseLength freeResponses;
               Quality.consistency_score := calculateConsistency mcResponses |};
          UserData.quality_status := "pending";
          UserData.should_match := false;
          UserData.status := "new";
          UserData.is_synthetic := false;
          UserData.created_at := created_at;
          UserData.updated_at := updated_at |} in
     res <- insert_single userData ;;
     match res with
     | inr error =>
         emit (console_error "Supabase error details:") ;;;
         throw (Error (if String.eqb (message error) ""
                       then "Failed to submit to Supabase" else message error))
     | inl data =>
         emit (console_log "Successfully submitted user data:") ;;;
         ret data
     end)
    (fun error =>
       emit (console_error "Error submitting form:") ;;;
       throw error).

Definition getUserById (userId : uuid) : M Row :=
  res <- select_single userId ;;
  match res with
  | inr error => emit (console_error "Error fetching user:") ;;; throw (Rejected error)
  | inl data => ret data
  end.

Definition getAllRealUsers : M (list Row) :=
  res <- select_ordered SelectRealUsers
           (fun r => Bool.eqb (UserData.is_synthetic (data r)) false) false ;;
  match res with
  | inr error => emit (console_error "Error fetching users:") ;;; throw (Rejected error)
  | inl data => ret data
  end.

Definition matchable (r : Row) : bool :=
  Bool.eqb (UserData.should_match (data r)) true
  && String.eqb (UserData.quality_status (data r)) "approved".

Definition getMatchableUsers : M (list Row) :=
  res <- select_ordered SelectMatchable matchable false ;;
  match res with
  | inr error => emit (console_error "Error fetching matchable users:") ;;; throw (Rejected error)
  | inl data => ret data
  end.

(** ** The polling effect of [SurveyForm] *)

Record Component := {
  submitted : bool;
  processing : bool;
  userId : option uuid;
  matchData : option MatchData.t;
  pollAttempts : nat
}.

Definition setMatchData (m : MatchData.t) (c : Component) : Component :=
  {| submitted := submitted c; processing := processing c; userId := userId c;
     matchData := Some m; pollAttempts := pollAttempts c |}.

Definition setProcessing (b : bool) (c : Component) : Component :=
  {| submitted := submitted c; processing := b; userId := userId c;
     matchData := matchData c; pollAttempts := pollAttempts c |}.

Definition setPollAttempts (f : nat -> nat) (c : Component) : Component :=
  {| submitted := submitted c; processing := processing c; userId := userId c;
     matchData := matchData c; pollAttempts := f (pollAttempts c) |}.

Definition maxAttempts : nat := 20.   (* 20 attempts * 3 seconds = 1 minute max *)
Definition pollInterval : Z := 3000.  (* 3 seconds *)

Definition checkForMatches (c : Component) (userId : uuid) : M Component :=
  try_catch
    (userData <- getUserById userId ;;
     emit (console_log "Polling attempt") ;;;
     match user_matches userData with
     | Some m =>
         emit (console_log "Matches found!") ;;;
         ret (setProcessing false (setMatchData m c))
     | None =>
         if (maxAttempts <=? pollAttempts c)%nat then
           emit (console_log "Max polling attempts reached") ;;;
           emit (alert "Match calculation is taking longer than expected. Please check back later.") ;;;
           ret (setProcessing false c)
         else
           ret (setPollAttempts (fun prev => prev + 1)%nat c)
     end)
    (fun error =>
       emit (console_error "Error polling for matches:") ;;;
       ret (setProcessing false c)).

(** What the rest of the system does to the store while the n-th timer runs
    (for instance the matching job attaching [user_matches], or an outage). *)
Definition Environment := nat -> Store -> Store.

(** The effect and its re-runs: every state change made by [checkForMatches]
    touches a dependency, so the effect runs again after each timer; it sets
    no timer once [processing] is off or [userId] is null. *)
Fixpoint poll (fuel : nat) (env : Environment) (n : nat)
              (c : Component) (w : World) : Component * World :=
  match fuel with
  | O => (c, w)
  | S fuel' =>
      match processing c, userId c with
      | true, Some uid =>
          let timer :=
            emit (setTimeout pollInterval) ;;;
            (fun w => (Normal tt, set_db (env n (db w)) w)) ;;;
            checkForMatches c uid in
          match timer w with
          | (Normal c', w') => poll fuel' env (S n) c' w'
          | (Throw _, w') => (c, w')
          end
      | _, _ => (c, w)
      end
  end.

(** The world after a step: the store it left and the events it added. *)
Definition poll_world (w : World) (s : Store) (events : list Event) : World :=
  {| db := s; clock := clock w; dates := dates w; trace := events ++ trace w |}.

(** Polls issued so far: the reads of the subject's record. *)
Definition reads (w : World) : nat :=
  List.length (filter (fun e => match e with request (SelectById _) => true | _ => false end)
                      (trace w)).

Definition inserts (w : World) : nat :=
  List.length (filter (fun e => match e with request Insert => true | _ => false end)
                      (trace w)).

Definition alerted (w : World) : bool :=
  existsb (fun e => match e with alert _ => true | _ => false end) (trace w).

Definition logged_error (msg : string) (w : World) : bool :=
  existsb (fun e => match e with console_error m => String.eqb m msg | _ => false end)
          (trace w).

(** How a polling run ended, read off what the user and the console saw. *)
Inductive Ending := MATCHED | TIMED_OUT | DEGRADED | PENDING_MATCH.

Definition ending (c : Component) (w : World) : Ending :=
  if processing c then PENDING_MATCH
  else match matchData c with
       | Some _ => MATCHED
       | None => if alerted w then TIMED_OUT else DEGRADED
       end.

(** ** Specification-side definitions *)

(** The ten buttons of a Likert scale. *)
Definition likert_scale : list number :=
  [1; 2; 3; 4; 5; 6; 7; 8; 9; 10]%float.

Definition Likert (x : number) : Prop := In x likert_scale.

Definition likert_fields (formData : FormData.t) : list number :=
  [ FormData.startVillage formData; FormData.spirituality formData;
    FormData.ambition formData; FormData.familyOrientation formData;
    FormData.wealthOrientation formData; FormData.teamwork formData;
    FormData.agency formData; FormData.preparedness formData;
    FormData.locationFreedom formData; FormData.existingCommunity formData;
    FormData.empathy formData;
    FormData.offGridVillage formData; FormData.nomadicTribe formData;
    FormData.businessStartup formData; FormData.wellnessCenter formData;
    FormData.spiritualCenter formData; FormData.techHub formData;
    FormData.startupNation formData ].

(** SurveyResponse invariant: every Likert field is an integer in [1,10]. *)
Definition SurveyResponse_inv (formData : FormData.t) : Prop :=
  Forall Likert (likert_fields formData).

(** Exact mean of the values of a list of numbers. *)
Definition Qmean (xs : list number) : Q :=
  (fold_right Qplus 0 (map F2Q xs) / inject_Z (Z.of_nat (List.length xs)))%Q.

(** The checklist of completeness: contact basics and the eight answers. *)
Definition checklist (formData : FormData.t) : list string :=
  [ FormData.email formData; FormData.firstName formData; FormData.lastName formData;
    FormData.jobCareer formData; FormData.lifeAchievements formData;
    FormData.dreamBuilding formData; FormData.communitySpace formData;
    FormData.coreValues formData; FormData.qualitiesSeek formData;
    FormData.dealBreakers formData; FormData.skillsAbilities formData ].

(** The answer stored under a key of the form data. *)
Definition answer (formData : FormData.t) (field : string) : string :=
  match get (FormData.entries formData) field with
  | JSString s => s
  | _ => ""
  end.

Definition non_empty (s : string) : bool := negb (String.eqb s "").

Definition filled (formData : FormData.t) : nat :=
  List.length (filter non_empty (checklist formData)).

Definition missing (formData : FormData.t) : nat :=
  List.length (filter (fun s => negb (non_empty s)) (checklist formData)).

(** Left-to-right sum, as [reduce((a, b) => a + b, 0)] adds. *)
Definition float_sum (xs : list number) : number := fold_left PrimFloat.add xs 0%float.

Definition mean_length (answers : list string) : number :=
  match answers with
  | [] => 0%float
  | _ => (float_sum (map js_length answers) / N2f (List.length answers))%float
  end.

(** The string-valued properties of an object, empty strings included. *)
Fixpoint string_values (o : JSObject) : list string :=
  match o with
  | [] => []
  | (_, JSString s) :: o' => s :: string_values o'
  | _ :: o' => string_values o'
  end.

(** [response_length_avg] in the words of the specification: the mean over
    the free-text fields that are non-empty strings, 0 if there is none. *)
Definition response_length_avg_spec (freeResponses : JSObject) : number :=
  mean_length (filter non_empty (string_values freeResponses)).

(** The alignment checks as a table of pairs of dimensions. *)
Definition alignment_pairs : list ((Mc.t -> number) * (Mc.t -> number)) :=
  [ (Mc.start_village, Mc.interest_off_grid);
    (Mc.spirituality, Mc.interest_spiritual);
    (Mc.ambition, Mc.interest_business) ].

(** A check passes when the ratings differ by at most 3. *)
Definition check_passes (mc : Mc.t) (p : (Mc.t -> number) * (Mc.t -> number)) : bool :=
  (abs (fst p mc - snd p mc) <=? 3)%float.



(** Ascending / descending arrival order of a result. *)
Definition arrival_ascending (l : list Row) : Prop :=
  Sorted (fun r1 r2 => UserData.created_at (data r1) <= UserData.created_at (data r2)) l.

Definition arrival_descending (l : list Row) : Prop :=
  Sorted (fun r1 r2 => UserData.created_at (data r2) <= UserData.created_at (data r1)) l.

(** Integers [lo, lo + n). *)
Definition Zrange (lo : Z) (n : nat) : list Z :=
  map (fun i => lo + Z.of_nat i) (seq 0 n).

(** ** Sample responses and worlds *)

(** A complete response: readiness inputs 5, 5, 6; interests sum to 36. *)
Definition sample_response : FormData.t :=
  (FormData.Build_t
    "ada@example.org" "Ada" "Byron" (Some 36) "" ["evenings"] ""
    "I build analytical engines." "Published the first program."
    "A school of mechanics." "A shared workshop." "Rigour and curiosity."
    "Patience." "Dishonesty." "Mathematics, writing."
    8 3 9 4 2 7 5 5 6 4 8
    6 2 9 3 5 10 1)%float.

(** Three of the eleven required fields are empty. *)
Definition three_missing : FormData.t :=
  (FormData.Build_t
    "ada@example.org" "Ada" "Byron" None "" [] ""
    "I build analytical engines." "Published the first program."
    "A school of mechanics." "A shared workshop." "Rigour and curiosity."
    "" "" ""
    5 5 5 5 5 5 5 5 5 5 5
    5 5 5 5 5 5 5)%float.

(** One four-character answer, the seven others left empty. *)
Definition one_answer : FormData.t :=
  (FormData.Build_t
    "ada@example.org" "Ada" "Byron" None "" [] ""
    "abcd" "" "" "" "" "" "" ""
    5 5 5 5 5 5 5 5 5 5 5
    5 5 5 5 5 5 5)%float.


Definition empty_store : Store := {| table := []; fault := None; next_id := 1%nat |}.

Definition unavailable : PostgrestError :=
  {| message := "service unavailable"; details := ""; hint := ""; code := "503" |}.

Definition morning : World :=
  {| db := empty_store; clock := fun n => 1000 + Z.of_nat n; dates := 0%nat; trace := [] |}.

(** The user's record as stored by a submission at time [t], still unmatched. *)
Definition stored (i : uuid) (t : Timestamp) (approved : bool) : Row :=
  {| id := i;
     data :=
       {| UserData.email := "ada@example.org";
          UserData.first_name := "Ada";
          UserData.last_name := "Byron";
          UserData.age := None;
          UserData.phone := "";
          UserData.social_links := "";
          UserData.form_responses :=
            {| FormResponses.preferred_times := [];
               FormResponses.mc := mcResponses sample_response;
               FormResponses.free := freeResponses sample_response;
               FormResponses.survey_version := 2%float;
               FormResponses.submitted_at := t |};
          UserData.mc_responses := mcResponses sample_response;
          UserData.free_responses := freeResponses sample_response;
          UserData.attribute_scores := attributeScores sample_response;
          UserData.quality_metrics :=
            {| Quality.completeness := 100%float;
               Quality.response_length_avg := 20%float;
               Quality.consistency_score := 100%float |};
          UserData.quality_status := if approved then "approved" else "pending";
          UserData.should_match := approved;
          UserData.status := "new";
          UserData.is_synthetic := false;
          UserData.created_at := t;
          UserData.updated_at := t |};
     user_matches := None |}.

(** Two reviewed profiles, in order of arrival. *)
Definition early : Row := stored 1%nat 1000 true.
Definition late : Row := stored 2%nat 2000 true.

(** A later world whose store already holds them. *)
Definition two_arrivals : Store :=
  {| table := [early; late]; fault := None; next_id := 3%nat |}.

Definition evening : World :=
  {| db := two_arrivals; clock := fun n => 90000 + 7 * Z.of_nat n; dates := 5%nat;
     trace := [console_log "ready"] |}.

(** The store holds the subject's record and no match is ever attached. *)
Definition waiting_store : Store :=
  {| table := [stored 7%nat 1000 false]; fault := None; next_id := 8%nat |}.

Definition waiting : World :=
  {| db := waiting_store; clock := fun n => 1000 + Z.of_nat n; dates := 3%nat; trace := [] |}.

Definition idle : Environment := fun _ s => s.

(** The store goes down while the third timer runs. *)
Definition outage_at_third : Environment :=
  fun n s => if Nat.eqb n 2%nat
             then {| table := table s; fault := Some unavailable; next_id := next_id s |}
             else s.

(** The component right after a successful submission of user 7. *)
Definition just_submitted : Component :=
  {| submitted := true; processing := true; userId := Some 7%nat;
     matchData := None; pollAttempts := 0%nat |}.

(** The component when the third timer is set. *)
Definition third_poll : Component :=
  {| submitted := true; processing := true; userId := Some 7%nat;
     matchData := None; pollAttempts := 2%nat |}.

From Stdlib Require Import Ascii.

(** ** Regular expressions, as [RegExp.prototype.test] decides them

    Only what the component's pattern needs: character classes, sequence,
    alternative and repetition, matched against the whole string (the
    pattern is anchored by [^] and [$]). *)

Inductive RegExp :=
| Never
| Empty
| Class (accepts : ascii -> bool)
| Seq (r1 r2 : RegExp)
| Alt (r1 r2 : RegExp)
| Star (r : RegExp).

Definition Plus (r : RegExp) : RegExp := Seq r (Star r).

Fixpoint nullable (r : RegExp) : bool :=
  match r with
  | Never => false
  | Empty => true
  | Class _ => false
  | Seq r1 r2 => nullable r1 && nullable r2
  | Alt r1 r2 => nullable r1 || nullable r2
  | Star _ => true
  end.

Fixpoint derive (c : ascii) (r : RegExp) : RegExp :=
  match r with
  | Never => Never
  | Empty => Never
  | Class accepts => if accepts c then Empty else Never
  | Seq r1 r2 =>
      if nullable r1 then Alt (Seq (derive c r1) r2) (derive c r2)
      else Seq (derive c r1) r2
  | Alt r1 r2 => Alt (derive c r1) (derive c r2)
  | Star r' => Seq (derive c r') (Star r')
  end.

Fixpoint test (r : RegExp) (s : string) : bool :=
  match s with
  | EmptyString => nullable r
  | String c s' => test (derive c r) s'
  end.

(** The strings a pattern denotes. *)
Inductive denotes : RegExp -> string -> Prop :=
| denotes_Empty : denotes Empty ""
| denotes_Class accepts c : accepts c = true -> denotes (Class accepts) (String c "")
| denotes_Seq r1 r2 s1 s2 :
    denotes r1 s1 -> denotes r2 s2 -> denotes (Seq r1 r2) (s1 ++ s2)
| denotes_Alt_l r1 r2 s : denotes r1 s -> denotes (Alt r1 r2) s
| denotes_Alt_r r1 r2 s : denotes r2 s -> denotes (Alt r1 r2) s
| denotes_Star_nil r : denotes (Star r) ""
| denotes_Star_cons r s1 s2 :
    denotes r s1 -> denotes (Star r) s2 -> denotes (Star r) (s1 ++ s2).

(** [\s] on code units below 256: tab to carriage return, space, no-break space. *)
Definition is_space (c : ascii) : bool :=
  let n := nat_of_ascii c in
  ((9 <=? n) && (n <=? 13) || (n =? 32) || (n =? 160))%nat.

(** [[^\s@]] *)
Definition not_space_at (c : ascii) : bool :=
  negb (is_space c || Ascii.eqb c "@").

(** [/^[^\s@]+@[^\s@]+\.[^\s@]+$/] *)
Definition emailRegex : RegExp :=
  Seq (Plus (Class not_space_at))
      (Seq (Class (Ascii.eqb "@"))
           (Seq (Plus (Class not_space_at))
                (Seq (Class (Ascii.eqb "."))
                     (Plus (Class not_space_at))))).

(** A non-empty run of characters that are neither white space nor [@]. *)
Fixpoint plain (s : string) : bool :=
  match s with
  | EmptyString => true
  | String c s' => not_space_at c && plain s'
  end.

Definition plain_part (s : string) : Prop := s <> "" /\ plain s = true.

(** ** The form component: state, input handlers and navigation *)

(** [{ ...o, [key]: value }]: an own property keeps its place, a new one
    goes last. *)
Definition set (o : JSObject) (key : string) (value : JSValue) : JSObject :=
  if existsb (fun kv => String.eqb (fst kv) key) o
  then map (fun kv => if String.eqb (fst kv) key then (fst kv, value) else kv) o
  else o ++ [(key, value)].

(** Reading a property back at the type of its field.  The record is typed:
    a value of another type cannot be held and the field keeps its value;
    every call site of the component passes a value of the field's type. *)
Definition as_string (v : JSValue) (old : string) : string :=
  match v with JSString s => s | _ => old end.

Definition as_number (v : JSValue) (old : number) : number :=
  match v with JSNumber x => x | _ => old end.

Definition as_age (v : JSValue) (old : option number) : option number :=
  match v with JSNumber x => Some x | JSNull => None | _ => old end.

Definition as_strings (v : JSValue) (old : list string) : list string :=
  match v with JSArray l => l | _ => old end.

Definition of_object (o : JSObject) (prev : FormData.t) : FormData.t :=
  {| FormData.email := as_string (get o "email") (FormData.email prev);
     FormData.firstName := as_string (get o "firstName") (FormData.firstName prev);
     FormData.lastName := as_string (get o "lastName") (FormData.lastName prev);
     FormData.age := as_age (get o "age") (FormData.age prev);
     FormData.phone := as_string (get o "phone") (FormData.phone prev);
     FormData.preferredTimes := as_strings (get o "preferredTimes") (FormData.preferredTimes prev);
     FormData.socialLinks := as_string (get o "socialLinks") (FormData.socialLinks prev);
     FormData.jobCareer := as_string (get o "jobCareer") (FormData.jobCareer prev);
     FormData.lifeAchievements := as_string (get o "lifeAchievements") (FormData.lifeAchievements prev);
     FormData.dreamBuilding := as_string (get o "dreamBuilding") (FormData.dreamBuilding prev);
     FormData.communitySpace := as_string (get o "communitySpace") (FormData.communitySpace prev);
     FormData.coreValues := as_string (get o "coreValues") (FormData.coreValues prev);
     FormData.qualitiesSeek := as_string (get o "qualitiesSeek") (FormData.qualitiesSeek prev);
     FormData.dealBreakers := as_string (get o "dealBreakers") (FormData.dealBreakers prev);
     FormData.skillsAbilities := as_string (get o "skillsAbilities") (FormData.skillsAbilities prev);
     FormData.startVillage := as_number (get o "startVillage") (FormData.startVillage prev);
     FormData.spirituality := as_number (get o "spirituality") (FormData.spirituality prev);
     FormData.ambition := as_number (get o "ambition") (FormData.ambition prev);
     FormData.familyOrientation := as_number (get o "familyOrientation") (FormData.familyOrientation prev);
     FormData.wealthOrientation := as_number (get o "wealthOrientation") (FormData.wealthOrientation prev);
     FormData.teamwork := as_number (get o "teamwork") (FormData.teamwork prev);
     FormData.agency := as_number (get o "agency") (FormData.agency prev);
     FormData.preparedness := as_number (get o "preparedness") (FormData.preparedness prev);
     FormData.locationFreedom := as_number (get o "locationFreedom") (FormData.locationFreedom prev);
     FormData.existingCommunity := as_number (get o "existingCommunity") (FormData.existingCommunity prev);
     FormData.empathy := as_number (get o "empathy") (FormData.empathy prev);
     FormData.offGridVillage := as_number (get o "offGridVillage") (FormData.offGridVillage prev);
     FormData.nomadicTribe := as_number (get o "nomadicTribe") (FormData.nomadicTribe prev);
     FormData.businessStartup := as_number (get o "businessStartup") (FormData.businessStartup prev);
     FormData.wellnessCenter := as_number (get o "wellnessCenter") (FormData.wellnessCenter prev);
     FormData.spiritualCenter := as_number (get o "spiritualCenter") (FormData.spiritualCenter prev);
     FormData.techHub := as_number (get o "techHub") (FormData.techHub prev);
     FormData.startupNation := as_number (get o "startupNation") (FormData.startupNation prev) |}.

(** [setFormData(prev => ({ ...prev, [field]: value }))] *)
Definition updateFormData (field : string) (value : JSValue) (prev : FormData.t)
  : FormData.t :=
  of_object (set (FormData.entries prev) field value) prev.

(** Can [field] hold [value]?  Strings under text fields, numbers under
    ratings, a string list under the times, a number or null under the age. *)
Definition holds (field : string) (value : JSValue) (prev : FormData.t) : bool :=
  match get (FormData.entries prev) field, value with
  | JSString _, JSString _ | JSArray _, JSArray _ | JSNumber _, JSNumber _ => true
  | JSNull, JSNumber _ | JSNull, JSNull => true
  | JSNumber _, JSNull => String.eqb field "age"
  | _, _ => false
  end.

(** [x || null] *)
Definition or_null (x : number) : JSValue :=
  if ToBoolean (JSNumber x) then JSNumber x else JSNull.

(** The click handler of a preferred-time button. *)
Definition toggle_time (time : string) (preferredTimes : list string) : list string :=
  if existsb (String.eqb time) preferredTimes        (* includes(time) *)
  then filter (fun t => negb (String.eqb t time)) preferredTimes
  else preferredTimes ++ [time].

Record SurveyForm := {
  currentStep : nat;
  loading : bool;
  formData : FormData.t;
  session : Component   (* submitted, processing, userId, matchData, pollAttempts *)
}.

Definition setCurrentStep (n : nat) (f : SurveyForm) : SurveyForm :=
  {| currentStep := n; loading := loading f; formData := formData f; session := session f |}.

Definition setLoading (b : bool) (f : SurveyForm) : SurveyForm :=
  {| currentStep := currentStep f; loading := b; formData := formData f;
     session := session f |}.

Definition setFormData (g : FormData.t -> FormData.t) (f : SurveyForm) : SurveyForm :=
  {| currentStep := currentStep f; loading := loading f; formData := g (formData f);
     session := session f |}.

Definition setSession (c : Component) (f : SurveyForm) : SurveyForm :=
  {| currentStep := currentStep f; loading := loading f; formData := formData f;
     session := c |}.

(** The initial state of the component. *)
Definition initialFormData : FormData.t :=
  (FormData.Build_t
     "" "" "" None "" [] ""
     "" "" "" "" "" "" "" ""
     5 5 5 5 5 5 5 5 5 5 5
     5 5 5 5 5 5 5)%float.

Definition initialForm : SurveyForm :=
  {| currentStep := 1; loading := false; formData := initialFormData;
     session := {| submitted := false; processing := false; userId := None;
                   matchData := None; pollAttempts := 0 |} |}.

Definition totalSteps : nat := 6.

Definition falsy (s : string) : bool := negb (ToBoolean (JSString s)).

Definition validateCurrentStep (f : SurveyForm) : M bool :=
  let formData := formData f in
  match currentStep f with
  | 1%nat =>
      if falsy (FormData.firstName formData) || falsy (FormData.lastName formData)
         || falsy (FormData.email formData)
      then emit (alert "Please fill in all required fields: First Name, Last Name, and Email") ;;;
           ret false
      else if negb (test emailRegex (FormData.email formData))
      then emit (alert "Please enter a valid email address") ;;; ret false
      else ret true
  | 2%nat =>
      if falsy (FormData.jobCareer formData) || falsy (FormData.lifeAchievements formData)
         || falsy (FormData.skillsAbilities formData)
      then emit (alert "Please fill in all required fields on this page") ;;; ret false
      else if (js_length (FormData.jobCareer formData) <? 20)%float
              || (js_length (FormData.lifeAchievements formData) <? 20)%float
      then emit (alert "Please provide more detailed responses (at least 2-3 sentences)") ;;;
           ret false
      else ret true
  | 3%nat =>
      if falsy (FormData.dreamBuilding formData) || falsy (FormData.communitySpace formData)
      then emit (alert "Please fill in all required fields on this page") ;;; ret false
      else if (js_length (FormData.dreamBuilding formData) <? 20)%float
              || (js_length (FormData.communitySpace formData) <? 20)%float
      then emit (alert "Please provide more detailed responses (at least 2-3 sentences)") ;;;
           ret false
      else ret true
  | 5%nat =>
      if falsy (FormData.coreValues formData) || falsy (FormData.qualitiesSeek formData)
         || falsy (FormData.dealBreakers formData)
      then emit (alert "Please fill in all required fields on this page") ;;; ret false
      else ret true
  | _ => ret true
  end.

Definition handleNext (f : SurveyForm) : M SurveyForm :=
  valid <- validateCurrentStep f ;;
  if valid && (currentStep f <? totalSteps)%nat
  then ret (setCurrentStep (currentStep f + 1)%nat f)
  else ret f.

Definition handleBack (f : SurveyForm) : SurveyForm :=
  if (1 <? currentStep f)%nat then setCurrentStep (currentStep f - 1)%nat f else f.

(** The awaited insert is taken as one step: nothing else happens to the
    component between the call and its result.  The state in which the
    request is in flight ([loading] on, Back and the inputs still enabled)
    is therefore not a state of the model: [reachable] holds the states
    before the click and after the store's answer, and what it shows about
    [loading], or about the step at the moment the insert completes, is a
    fact of this model only. *)
Definition handleSubmit (f : SurveyForm) : M SurveyForm :=
  if negb (currentStep f =? totalSteps)%nat then ret f
  else
    f' <- try_catch
            (emit (console_log "Submitting form data:") ;;;
             user <- submitUserForm (formData f) ;;
             emit (console_log "Form submitted successfully:") ;;;
             (* Set up for polling *)
             ret (setSession
                    {| submitted := true; processing := true; userId := Some (id user);
                       matchData := matchData (session f);
                       pollAttempts := pollAttempts (session f) |}
                    (setLoading true f)))
            (fun error =>
               emit (console_error "Error submitting form:") ;;;
               emit (alert "Error submitting form. Please check the console and try again.") ;;;
               ret (setLoading true f)) ;;
    ret (setLoading false f').

(** What each step renders. *)
Definition text_inputs (step : nat) : list string :=
  match step with
  | 1%nat => ["firstName"; "lastName"; "email"; "phone"; "socialLinks"]
  | 2%nat => ["jobCareer"; "lifeAchievements"; "skillsAbilities"]
  | 3%nat => ["dreamBuilding"; "communitySpace"]
  | 5%nat => ["coreValues"; "qualitiesSeek"; "dealBreakers"]
  | _ => []
  end.

Definition scales (step : nat) : list string :=
  match step with
  | 3%nat => ["startVillage"]
  | 4%nat => ["offGridVillage"; "nomadicTribe"; "businessStartup"; "wellnessCenter";
              "spiritualCenter"; "techHub"; "startupNation"]
  | 5%nat => ["spirituality"; "familyOrientation"; "teamwork"]
  | 6%nat => ["ambition"; "wealthOrientation"; "agency"; "preparedness";
              "locationFreedom"; "existingCommunity"; "empathy"]
  | _ => []
  end.

Definition time_buttons : list string := ["Morning"; "Afternoon"; "Evening"].

(** What the user can do to the rendered form. *)
Inductive Action :=
| Typing (field text : string)          (* onChange of an input or a textarea *)
| TypingAge (parsed : number)           (* onChange of the age input; [parsed] is the parseInt *)
| ClickTime (time : string)             (* a preferred-time button *)
| ClickScale (field : string) (button : nat)   (* the n-th button of a Likert scale *)
| ClickNext
| ClickBack
| ClickSubmit.

Definition renders (field : string) (inputs : list string) : bool :=
  existsb (String.eqb field) inputs.

(** An action reaches its handler only through an element that is rendered
    and enabled in the current state. *)
Definition dispatch (a : Action) (f : SurveyForm) : M SurveyForm :=
  if submitted (session f) then ret f   (* the form is replaced by the result screens *)
  else
    match a with
    | Typing field text =>
        if renders field (text_inputs (currentStep f))
        then ret (setFormData (updateFormData field (JSString text)) f)
        else ret f
    | TypingAge parsed =>
        if (currentStep f =? 1)%nat
        then ret (setFormData (updateFormData "age" (or_null parsed)) f)
        else ret f
    | ClickTime time =>
        if (currentStep f =? 1)%nat && renders time time_buttons
        then let times := toggle_time time (FormData.preferredTimes (formData f)) in
             ret (setFormData (updateFormData "preferredTimes" (JSArray times)) f)
        else ret f
    | ClickScale field button =>
        match nth_error likert_scale button with
        | Some num =>
            if renders field (scales (currentStep f))
            then ret (setFormData (updateFormData field (JSNumber num)) f)
            else ret f
        | None => ret f
        end
    | ClickNext =>
        if (currentStep f <? totalSteps)%nat then handleNext f else ret f
    | ClickBack =>
        if (currentStep f =? 1)%nat then ret f else ret (handleBack f)
    | ClickSubmit =>
        if (currentStep f <? totalSteps)%nat || loading f then ret f else handleSubmit f
    end.

(** The states a session can be in: the initial one, and what user actions
    and runs of the polling effect make of it, in any world. *)
Inductive reachable : SurveyForm -> Prop :=
| reachable_initial : reachable initialForm
| reachable_dispatch f a w f' w' :
    reachable f -> dispatch a f w = (Normal f', w') -> reachable f'
| reachable_poll f fuel env n w c' w' :
    reachable f -> poll fuel env n (session f) w = (c', w') ->
    reachable (setSession c' f).

(** A session played from a list of actions. *)
Fixpoint run (actions : list Action) (f : SurveyForm) (w : World) : SurveyForm * World :=
  match actions with
  | [] => (f, w)
  | a :: rest =>
      match dispatch a f w with
      | (Normal f', w') => run rest f' w'
      | (Throw _, w') => (f, w')
      end
  end.

(** Filling the six steps. *)
Definition fill_in : list Action :=
  [ Typing "firstName" "Ada"; Typing "lastName" "Byron";
    Typing "email" "ada@example.org"; TypingAge 36%float; ClickTime "Evening";
    ClickNext;
    Typing "jobCareer" "I build analytical engines.";
    Typing "lifeAchievements" "Published the first program.";
    Typing "skillsAbilities" "Mathematics, writing.";
    ClickNext;
    Typing "dreamBuilding" "A school of mechanics.";
    Typing "communitySpace" "A shared workshop for all.";
    ClickScale "startVillage" 7;
    ClickNext;
    ClickScale "techHub" 9;
    ClickNext;
    Typing "coreValues" "Rigour and curiosity."; Typing "qualitiesSeek" "Patience.";
    Typing "dealBreakers" "Dishonesty.";
    ClickNext;
    ClickScale "agency" 8 ].

(** The form on its last step, filled in and not yet submitted. *)
Definition filled_in : SurveyForm :=
  Eval vm_compute in fst (run fill_in initialForm morning).

(** The form and the world after a click on Submit in the morning. *)
Definition submitted_form : SurveyForm :=
  Eval vm_compute in
    match fst (dispatch ClickSubmit filled_in morning) with
    | Normal f => f
    | Throw _ => filled_in
    end.

Definition submitted_world : World :=
  Eval vm_compute in snd (dispatch ClickSubmit filled_in morning).

(** A match envelope, and an environment in which the matching job attaches
    it to every record while the third timer runs. *)
Definition one_match : MatchData.t :=
  {| MatchData.matches :=
       [ {| MatchData.name := "Charles"; MatchData.email := "charles@example.org";
            MatchData.score := 87%float; MatchData.user_id := "2";
            MatchData.shared_interests := ["seeks_high_tech"] |} ];
     MatchData.calculated_at := "2026-01-01T00:00:00.000Z";
     MatchData.above_threshold := 1%float;
     MatchData.total_evaluated := 2%float;
     MatchData.algorithm_version := "v1" |}.

Definition matched_at_third : Environment :=
  fun n s =>
    if Nat.eqb n 2%nat
    then {| table := map (fun r => {| id := id r; data := data r;
                                      user_matches := Some one_match |}) (table s);
            fault := fault s; next_id := next_id s |}
    else s.


(** [validateCurrentStep] without its alerts: does the step accept the data? *)
Definition accepts_step (step : nat) (formData : FormData.t) : bool :=
  match step with
  | 1%nat =>
      non_empty (FormData.firstName formData) && non_empty (FormData.lastName formData)
      && non_empty (FormData.email formData) && test emailRegex (FormData.email formData)
  | 2%nat =>
      non_empty (FormData.jobCareer formData) && non_empty (FormData.lifeAchievements formData)
      && non_empty (FormData.skillsAbilities formData)
      && negb (js_length (FormData.jobCareer formData) <? 20)%float
      && negb (js_length (FormData.lifeAchievements formData) <? 20)%float
  | 3%nat =>
      non_empty (FormData.dreamBuilding formData) && non_empty (FormData.communitySpace formData)
      && negb (js_length (FormData.dreamBuilding formData) <? 20)%float
      && negb (js_length (FormData.communitySpace formData) <? 20)%float
  | 5%nat =>
      non_empty (FormData.coreValues formData) && non_empty (FormData.qualitiesSeek formData)
      && non_empty (FormData.dealBreakers formData)
  | _ => true
  end.

(** Every step before the current one accepts the data as they are now. *)
Definition validated (f : SurveyForm) : Prop :=
  forall step, (1 <= step < currentStep f)%nat -> accepts_step step (formData f) = true.

(** The selected times are buttons of the form, each at most once. *)
Definition times_ok (formData : FormData.t) : Prop :=
  NoDup (FormData.preferredTimes formData)
  /\ incl (FormData.preferredTimes formData) time_buttons.

(** The age is null or a number that is neither 0 nor NaN. *)
Definition age_ok (formData : FormData.t) : Prop :=
  match FormData.age formData with
  | None => True
  | Some x => ToBoolean (JSNumber x) = true
  end.

(** What holds of every state of a session. *)
Definition session_inv (f : SurveyForm) : Prop :=
  (1 <= currentStep f <= totalSteps)%nat /\
  loading f = false /\
  SurveyResponse_inv (formData f) /\
  validated f /\
  times_ok (formData f) /\
  age_ok (formData f) /\
  (pollAttempts (session f) <= maxAttempts)%nat /\
  (submitted (session f) = false ->
   processing (session f) = false /\ userId (session f) = None /\
   matchData (session f) = None /\ pollAttempts (session f) = 0%nat) /\
  (submitted (session f) = true ->
   currentStep f = totalSteps /\ userId (session f) <> None).

(** The width of the progress bar, in percent. *)
Definition progressWidth (f : SurveyForm) : number :=
  (N2f (currentStep f) / N2f totalSteps * 100)%float.

(** The store after the timers [n], ..., [n + k - 1] of a polling run. *)
Fixpoint evolve (env : Environment) (n k : nat) (s : Store) : Store :=
  match k with
  | O => s
  | S k' => evolve env (S n) k' (env n s)
  end.

Definition timers (w : World) : nat :=
  List.length (filter (fun e => match e with setTimeout _ => true | _ => false end)
                      (trace w)).

(** The percentage shown for [n] filled fields out of eleven, as a rational. *)
Definition percent_of_11 (n : nat) : Q := F2Q (N2f n / 11 * 100)%float.


(** The events a run added to the trace, most recent first. *)
Definition events_since (w w' : World) : list Event :=
  firstn (List.length (trace w') - List.length (trace w)) (trace w').

(** How a polling run started in world [w] ended, read off what the run
    itself showed: an alert raised earlier (by a validation, by a refused
    submission) is not the run's. *)
Definition ending_of_run (w : World) (c' : Component) (w' : World) : Ending :=
  if processing c' then PENDING_MATCH
  else match matchData c' with
       | Some _ => MATCHED
       | None =>
           if existsb (fun e => match e with alert _ => true | _ => false end)
                      (events_since w w')
           then TIMED_OUT else DEGRADED
       end.

(** A world in which a validation alert was shown before the submission. *)
Definition alerted_earlier : World :=
  {| db := waiting_store; clock := fun n => 1000 + Z.of_nat n; dates := 3%nat;
     trace := [ console_log "Successfully submitted user data:"; request Insert;
                alert "Please enter a valid email address" ] |}.

(** The store keeps its keys apart: every id is below the next one. *)
Definition ids_fresh (s : Store) : Prop :=
  Forall (fun r => (id r < next_id s)%nat) (table s).

(** * Properties *)

(** ** Finite enumeration *)

Lemma Zrange_In lo n k : lo <= k < lo + Z.of_nat n -> In k (Zrange lo n).
Proof.
  intros H. unfold Zrange. apply in_map_iff.
  exists (Z.to_nat (k - lo)). split; [lia | apply in_seq; lia].
Qed.

Lemma Forall_Zrange (P : Z -> Prop) lo n :
  Forall P (Zrange lo n) -> forall k, lo <= k < lo + Z.of_nat n -> P k.
Proof.
  intros HF k Hk. rewrite Forall_forall in HF. apply HF, Zrange_In, Hk.
Qed.

Ltac enumerate_range :=
  repeat match goal with
         | |- context [Zrange ?lo ?n] =>
             let l := eval vm_compute in (Zrange lo n) in
             change (Zrange lo n) with l
         end.

(** ** Integer-valued numbers are exact in the ranges the form produces *)

Lemma Z2f_add a b :
  0 <= a <= 60 -> 0 <= b <= 10 -> (Z2f a + Z2f b)%float = Z2f (a + b).
Proof.
  intros Ha Hb. revert b Hb. revert a Ha.
  assert (H : Forall (fun a => Forall (fun b => (Z2f a + Z2f b)%float = Z2f (a + b))
                                      (Zrange 0 11)) (Zrange 0 61)).
  { enumerate_range. repeat (constructor; [repeat (constructor; [reflexivity|]); constructor|]).
    constructor. }
  intros a Ha b Hb.
  pose proof (Forall_Zrange _ 0 61 H a ltac:(lia)) as Hrow.
  exact (Forall_Zrange _ 0 11 Hrow b ltac:(lia)).
Qed.

Lemma F2Q_Z2f k : 0 <= k <= 70 -> F2Q (Z2f k) = inject_Z k.
Proof.
  intros Hk. revert k Hk.
  assert (H : Forall (fun k => F2Q (Z2f k) = inject_Z k) (Zrange 0 71)).
  { enumerate_range. repeat (constructor; [vm_compute; reflexivity|]). constructor. }
  intros k Hk. apply (Forall_Zrange _ 0 71 H); lia.
Qed.

Lemma Likert_Z2f x : Likert x -> exists k, 1 <= k <= 10 /\ x = Z2f k.
Proof.
  unfold Likert, likert_scale. simpl.
  intros [H|[H|[H|[H|[H|[H|[H|[H|[H|[H|[]]]]]]]]]]]; subst x;
    [exists 1|exists 2|exists 3|exists 4|exists 5|exists 6|exists 7|exists 8|exists 9|exists 10];
    (split; [lia | reflexivity]).
Qed.

Lemma rounds_to_Qeq r q q' : (q == q')%Q -> rounds_to r q -> rounds_to r q'.
Proof.
  intros E [Hf Hb]. split; [exact Hf|]. rewrite <- E. exact Hb.
Qed.

Lemma div3_rounds s : 0 <= s <= 70 -> rounds_to (Z2f s / 3)%float (inject_Z s / 3)%Q.
Proof.
  revert s.
  assert (H : Forall (fun s => rounds_to (Z2f s / 3)%float (inject_Z s / 3)%Q) (Zrange 0 71)).
  { enumerate_range.
    repeat (constructor; [split; [reflexivity | vm_compute; discriminate]|]). constructor. }
  intros s Hs. apply (Forall_Zrange _ 0 71 H); lia.
Qed.

Lemma div7_rounds s : 0 <= s <= 70 -> rounds_to (Z2f s / 7)%float (inject_Z s / 7)%Q.
Proof.
  revert s.
  assert (H : Forall (fun s => rounds_to (Z2f s / 7)%float (inject_Z s / 7)%Q) (Zrange 0 71)).
  { enumerate_range.
    repeat (constructor; [split; [reflexivity | vm_compute; discriminate]|]). constructor. }
  intros s Hs. apply (Forall_Zrange _ 0 71 H); lia.
Qed.

Ltac split_Forall :=
  repeat match goal with
         | H : Forall _ (_ :: _) |- _ => inversion H; subst; clear H
         | H : Forall _ [] |- _ => clear H
         end.

Ltac use_Z2f :=
  repeat match goal with
         | E : _ = Z2f _ |- _ => try rewrite E; clear E
         end.

(** ** Vectorization *)

(** C1: for a response whose Likert fields are integers in [1,10], each of
    the 18 fields is copied unchanged into its dimension, and the two derived
    scores are the means of their inputs computed by one floating-point
    division of the exact sum, with no further rounding. *)
Theorem attributeScores_copies_and_means (formData : FormData.t) :
  SurveyResponse_inv formData ->
  let a := attributeScores formData in
  (Attr.seeks_new_community a = FormData.startVillage formData /\
   Attr.seeks_high_tech a = FormData.techHub formData /\
   Attr.seeks_return_to_land a = FormData.offGridVillage formData /\
   Attr.seeks_entrepreneurship a = FormData.businessStartup formData /\
   Attr.seeks_spiritual_community a = FormData.spiritualCenter formData /\
   Attr.seeks_health_fitness a = FormData.wellnessCenter formData /\
   Attr.seeks_travel a = FormData.nomadicTribe formData /\
   Attr.seeks_breakaway_society a = FormData.startupNation formData /\
   Attr.ambitious a = FormData.ambition formData /\
   Attr.wealth_oriented a = FormData.wealthOrientation formData /\
   Attr.family_oriented a = FormData.familyOrientation formData /\
   Attr.teamwork_oriented a = FormData.teamwork formData /\
   Attr.religious a = FormData.spirituality formData /\
   Attr.high_agency a = FormData.agency formData /\
   Attr.high_skills a = FormData.preparedness formData /\
   Attr.high_empathy a = FormData.empathy formData /\
   Attr.high_location_freedom a = FormData.locationFreedom formData /\
   Attr.high_resources a = FormData.existingCommunity formData) /\
  rounds_to (Attr.readiness_score a)
            (Qmean [FormData.agency formData; FormData.preparedness formData;
                    FormData.locationFreedom formData]) /\
  rounds_to (Attr.community_interest_avg a)
            (Qmean [FormData.offGridVillage formData; FormData.nomadicTribe formData;
                    FormData.businessStartup formData; FormData.wellnessCenter formData;
                    FormData.spiritualCenter formData; FormData.techHub formData;
                    FormData.startupNation formData]).
Proof.
  intros Hinv a. split; [repeat split|].
  unfold SurveyResponse_inv, likert_fields in Hinv. split_Forall.
  repeat match goal with
         | H : Likert _ |- _ =>
             apply Likert_Z2f in H; let k := fresh "k" in
             let E := fresh "E" in destruct H as (k & ? & E)
         end.
  subst a. unfold attributeScores. cbn [Attr.readiness_score Attr.community_interest_avg].
  split.
  - use_Z2f. rewrite !Z2f_add by lia.
    unfold Qmean. cbn [map fold_right List.length]. rewrite !F2Q_Z2f by lia.
    eapply rounds_to_Qeq; [|apply div3_rounds; lia].
    rewrite !inject_Z_plus. change (inject_Z (Z.of_nat 3)) with 3%Q. field.
  - use_Z2f. rewrite !Z2f_add by lia.
    unfold Qmean. cbn [map fold_right List.length]. rewrite !F2Q_Z2f by lia.
    eapply rounds_to_Qeq; [|apply div7_rounds; lia].
    rewrite !inject_Z_plus. change (inject_Z (Z.of_nat 7)) with 7%Q. field.
Qed.

Ltac on_scale :=
  unfold Likert, likert_scale; cbn [In];
  repeat first [ left; reflexivity | right ].

(** The worked example: 5, 5 and 6 give 16/3, kept as the nearest double. *)
Lemma attributeScores_copies_and_means_witness :
  SurveyResponse_inv sample_response /\
  Attr.readiness_score (attributeScores sample_response) = (16 / 3)%float /\
  rounds_to (Attr.readiness_score (attributeScores sample_response)) (16 # 3).
Proof.
  assert (Hinv : SurveyResponse_inv sample_response).
  { unfold SurveyResponse_inv, likert_fields, sample_response.
    cbv [FormData.startVillage FormData.spirituality FormData.ambition
         FormData.familyOrientation FormData.wealthOrientation FormData.teamwork
         FormData.agency FormData.preparedness FormData.locationFreedom
         FormData.existingCommunity FormData.empathy FormData.offGridVillage
         FormData.nomadicTribe FormData.businessStartup FormData.wellnessCenter
         FormData.spiritualCenter FormData.techHub FormData.startupNation].
    repeat (apply Forall_cons; [on_scale|]). apply Forall_nil. }
  split; [exact Hinv|]. split; [reflexivity|].
  eapply rounds_to_Qeq;
    [| exact (proj1 (proj2 (attributeScores_copies_and_means sample_response Hinv)))].
  vm_compute. reflexivity.
Defined.

(** ** Quality metrics *)

Lemma N2f_succ k : (k <= 10)%nat -> (N2f k + 1)%float = N2f (S k).
Proof.
  intros Hk. unfold N2f. rewrite Nat2Z.inj_succ.
  change 1%float with (Z2f 1). rewrite Z2f_add by lia. reflexivity.
Qed.

(** The counting loop of [forEach]: a number that stays an exact count. *)
Lemma forEach_count (truthy : string -> bool) fields k :
  (k + List.length fields <= 11)%nat ->
  fold_left (fun (filledCount : number) field =>
               if truthy field then (filledCount + 1)%float else filledCount)
            fields (N2f k)
  = N2f (k + List.length (filter truthy fields)).
Proof.
  revert k. induction fields as [|field fields IH]; intros k Hk; cbn [fold_left filter].
  - now rewrite Nat.add_0_r.
  - cbn [List.length] in Hk. destruct (truthy field); cbn [List.length].
    + rewrite N2f_succ by lia. rewrite IH by lia. f_equal. lia.
    + apply IH. lia.
Qed.

Lemma filter_length_map {A B} (f : B -> bool) (h : A -> B) (l : list A) :
  List.length (filter f (map h l)) = List.length (filter (fun a => f (h a)) l).
Proof.
  induction l as [|a l IH]; cbn; [reflexivity|].
  destruct (f (h a)); cbn; now rewrite IH.
Qed.

Lemma filter_length_ext {A} (f g : A -> bool) (l : list A) :
  Forall (fun a => f a = g a) l ->
  List.length (filter f l) = List.length (filter g l).
Proof.
  induction 1 as [|a l E _ IH]; cbn; [reflexivity|].
  rewrite E. destruct (g a); cbn; now rewrite IH.
Qed.

Lemma filter_length_split {A} (f : A -> bool) (l : list A) :
  (List.length (filter f l) + List.length (filter (fun a => negb (f a)) l)
   = List.length l)%nat.
Proof.
  induction l as [|a l IH]; cbn; [reflexivity|].
  destruct (f a); cbn; lia.
Qed.

Lemma checklist_requiredFields formData :
  checklist formData = map (answer formData) requiredFields.
Proof. reflexivity. Qed.

Lemma filled_requiredFields formData :
  List.length
    (filter (fun field => ToBoolean (get (FormData.entries formData) field)) requiredFields)
  = filled formData.
Proof.
  unfold filled. rewrite checklist_requiredFields, filter_length_map.
  apply filter_length_ext. unfold requiredFields.
  repeat (apply Forall_cons; [reflexivity|]). apply Forall_nil.
Qed.

Lemma filled_missing formData : (filled formData + missing formData = 11)%nat.
Proof. unfold filled, missing. now rewrite filter_length_split. Qed.

(** C2: completeness is the number of non-empty fields among the eleven of
    the checklist, divided by 11, times 100; with exactly three of them
    missing it is (8/11) * 100, about 72.73. *)
Theorem calculateCompleteness_checklist (formData : FormData.t) :
  List.length (checklist formData) = 11%nat /\
  calculateCompleteness formData = (N2f (filled formData) / 11 * 100)%float /\
  (missing formData = 3%nat ->
   calculateCompleteness formData = (8 / 11 * 100)%float /\
   (72725 # 1000 <= F2Q (calculateCompleteness formData))%Q /\
   (F2Q (calculateCompleteness formData) <= 72735 # 1000)%Q).
Proof.
  assert (E : calculateCompleteness formData = (N2f (filled formData) / 11 * 100)%float).
  { unfold calculateCompleteness. change 0%float with (N2f 0).
    rewrite forEach_count by (cbn; lia). rewrite filled_requiredFields. reflexivity. }
  split; [reflexivity|]. split; [exact E|].
  intros Hm. pose proof (filled_missing formData) as Hs.
  assert (Hf : filled formData = 8%nat) by lia.
  rewrite E, Hf. split; [reflexivity|]. split; vm_compute; discriminate.
Qed.

Lemma calculateCompleteness_checklist_witness :
  missing three_missing = 3%nat /\
  calculateCompleteness three_missing = (8 / 11 * 100)%float.
Proof.
  split; [reflexivity|].
  exact (proj1 (proj2 (proj2 (calculateCompleteness_checklist three_missing)) eq_refl)).
Defined.

Lemma lengths_string_values (o : JSObject) :
  map length_of (filter typeof_string (Object_values o))
  = map js_length (string_values o).
Proof.
  unfold Object_values.
  induction o as [|[key val] o IH]; [reflexivity|].
  cbn [map snd filter].
  destruct val; cbn [typeof_string string_values map length_of];
    rewrite IH; reflexivity.
Qed.

(** C3 (as the code has it): the average is taken over every string-valued
    free-text field, the empty ones included (each counts 0 characters and
    one field); it is 0 when no field holds a string.  For a submitted form
    all eight answers are strings, so the sum of their lengths is divided
    by 8. *)
Theorem calculateAvgResponseLength_all_strings (freeResponses' : JSObject) :
  calculateAvgResponseLength freeResponses' = mean_length (string_values freeResponses') /\
  (string_values freeResponses' = [] -> calculateAvgResponseLength freeResponses' = 0%float) /\
  (forall formData,
      calculateAvgResponseLength (freeResponses formData)
      = (float_sum (map js_length
                        [ FormData.jobCareer formData; FormData.lifeAchievements formData;
                          FormData.dreamBuilding formData; FormData.communitySpace formData;
                          FormData.coreValues formData; FormData.qualitiesSeek formData;
                          FormData.dealBreakers formData; FormData.skillsAbilities formData ])
         / 8)%float).
Proof.
  assert (E : forall o, calculateAvgResponseLength o = mean_length (string_values o)).
  { intros o. unfold calculateAvgResponseLength. rewrite lengths_string_values.
    rewrite length_map. unfold mean_length, float_sum.
    destruct (string_values o); reflexivity. }
  split; [apply E|]. split.
  - intros Hnone. now rewrite E, Hnone.
  - intros formData. rewrite E. reflexivity.
Qed.

Lemma calculateAvgResponseLength_all_strings_witness :
  string_values [("age", JSNull)] = [] /\
  calculateAvgResponseLength [("age", JSNull)] = 0%float.
Proof.
  split; [reflexivity|].
  exact (proj1 (proj2 (calculateAvgResponseLength_all_strings [("age", JSNull)])) eq_refl).
Defined.

Lemma float_neq_by (f : number -> bool) (x y : number) : f x <> f y -> x <> y.
Proof. intros Hf E. apply Hf. now rewrite E. Qed.

(** C3 as worded fails: with one answer of four characters and seven empty
    answers the code returns 4/8 = 0.5, where the mean over the non-empty
    answers is 4. *)
Lemma calculateAvgResponseLength_counts_empty_answers :
  calculateAvgResponseLength (freeResponses one_answer) = 0.5%float /\
  response_length_avg_spec (freeResponses one_answer) = 4%float /\
  calculateAvgResponseLength (freeResponses one_answer)
  <> response_length_avg_spec (freeResponses one_answer).
Proof.
  split; [reflexivity|]. split; [reflexivity|].
  apply (float_neq_by (fun x => PrimFloat.ltb x 1)). vm_compute. discriminate.
Qed.





(** ** Submission *)

Lemma inserts_emit_insert w :
  inserts {| db := db w; clock := clock w; dates := dates w;
             trace := request Insert :: trace w |} = S (inserts w).
Proof. reflexivity. Qed.

(** What a submission does when the store accepts the insert. *)
Lemma submitUserForm_accepted formData w :
  fault (db w) = None ->
  exists row w',
    submitUserForm formData w = (Normal row, w') /\
    table (db w') = table (db w) ++ [row] /\
    inserts w' = S (inserts w) /\
    UserData.attribute_scores (data row) = attributeScores formData /\
    UserData.quality_metrics (data row)
    = {| Quality.completeness := calculateCompleteness formData;
         Quality.response_length_avg := calculateAvgResponseLength (freeResponses formData);
         Quality.consistency_score := calculateConsistency (mcResponses formData) |} /\
    UserData.mc_responses (data row) = mcResponses formData /\
    UserData.quality_status (data row) = "pending" /\
    UserData.should_match (data row) = false /\
    UserData.is_synthetic (data row) = false /\
    UserData.created_at (data row) = clock w (S (dates w)).
Proof.
  intros Hok.
  cbv [submitUserForm try_catch bind new_Date insert_single emit store_insert
         ret set_db].
  cbn [db clock dates trace]. rewrite Hok.
  eexists. eexists. split; [reflexivity|]. cbn. repeat split; reflexivity.
Qed.

(** What it does when the store rejects the insert. *)
Lemma submitUserForm_rejected formData w error :
  fault (db w) = Some error ->
  exists msg w',
    submitUserForm formData w = (Throw (Error msg), w') /\
    db w' = db w /\
    inserts w' = S (inserts w) /\
    msg = (if String.eqb (message error) "" then "Failed to submit to Supabase"
           else message error).
Proof.
  intros Hko.
  cbv [submitUserForm try_catch bind new_Date insert_single emit store_insert
         ret throw set_db].
  cbn [db clock dates trace]. rewrite Hko.
  eexists. eexists. split; [reflexivity|]. repeat split; reflexivity.
Qed.





(** C8: the attribute scores and the three quality metrics of the stored
    record depend on the response alone: two submissions of the same
    response, whatever the clock, the store contents and the console, carry
    the same scores and the same metrics, which are those of the pure
    functions. *)
Theorem scores_and_metrics_deterministic
        (formData : FormData.t) (w1 w2 w1' w2' : World) (r1 r2 : Row) :
  submitUserForm formData w1 = (Normal r1, w1') ->
  submitUserForm formData w2 = (Normal r2, w2') ->
  UserData.attribute_scores (data r1) = UserData.attribute_scores (data r2) /\
  UserData.quality_metrics (data r1) = UserData.quality_metrics (data r2) /\
  UserData.attribute_scores (data r1) = attributeScores formData /\
  UserData.quality_metrics (data r1)
  = {| Quality.completeness := calculateCompleteness formData;
       Quality.response_length_avg := calculateAvgResponseLength (freeResponses formData);
       Quality.consistency_score := calculateConsistency (mcResponses formData) |}.
Proof.
  assert (Hone : forall w w' r,
             submitUserForm formData w = (Normal r, w') ->
             UserData.attribute_scores (data r) = attributeScores formData /\
             UserData.quality_metrics (data r)
             = {| Quality.completeness := calculateCompleteness formData;
                  Quality.response_length_avg :=
                    calculateAvgResponseLength (freeResponses formData);
                  Quality.consistency_score :=
                    calculateConsistency (mcResponses formData) |}).
  { intros w w' r E. destruct (fault (db w)) as [error|] eqn:Hf.
    - destruct (submitUserForm_rejected formData w error Hf) as (msg & w0 & E0 & _).
      rewrite E0 in E. discriminate E.
    - destruct (submitUserForm_accepted formData w Hf)
        as (row & w0 & E0 & _ & _ & Ha & Hq & _).
      rewrite E0 in E. injection E as <- <-. auto. }
  intros E1 E2.
  destruct (Hone _ _ _ E1) as [Ha1 Hq1]. destruct (Hone _ _ _ E2) as [Ha2 Hq2].
  rewrite Ha1, Ha2, Hq1, Hq2. auto.
Qed.

Lemma scores_and_metrics_deterministic_witness :
  exists r1 r2 w1' w2',
    submitUserForm sample_response morning = (Normal r1, w1') /\
    submitUserForm sample_response evening = (Normal r2, w2') /\
    UserData.created_at (data r1) <> UserData.created_at (data r2) /\
    UserData.attribute_scores (data r1) = UserData.attribute_scores (data r2) /\
    UserData.quality_metrics (data r1) = UserData.quality_metrics (data r2).
Proof.
  eexists. eexists. eexists. eexists.
  split; [reflexivity|]. split; [reflexivity|]. split; [cbn; discriminate|].
  pose proof (scores_and_metrics_deterministic sample_response morning evening
                _ _ _ _ eq_refl eq_refl) as H.
  split; [exact (proj1 H) | exact (proj1 (proj2 H))].
Defined.

(** ** Queries *)

Section Ordering.
Variable ascending : bool.

Lemma created_at_le_total r1 r2 :
  created_at_le ascending r1 r2 = false -> created_at_le ascending r2 r1 = true.
Proof. unfold created_at_le. destruct ascending; lia. Qed.

Lemma insert_ordered_perm r l :
  Permutation (insert_ordered ascending r l) (r :: l).
Proof.
  induction l as [|x l IH]; cbn [insert_ordered]; [reflexivity|].
  destruct (created_at_le ascending r x); [reflexivity|].
  rewrite IH. apply perm_swap.
Qed.

Lemma insert_ordered_hd r x l :
  created_before ascending x r ->
  HdRel (created_before ascending) x l ->
  HdRel (created_before ascending) x (insert_ordered ascending r l).
Proof.
  intros Hxr Hl. destruct l as [|y l]; cbn [insert_ordered].
  - now constructor.
  - destruct (created_at_le ascending r y); constructor; [exact Hxr|].
    now inversion Hl.
Qed.

Lemma insert_ordered_sorted r l :
  Sorted (created_before ascending) l ->
  Sorted (created_before ascending) (insert_ordered ascending r l).
Proof.
  induction 1 as [|x l Hs IH Hhd]; cbn [insert_ordered].
  - repeat constructor.
  - destruct (created_at_le ascending r x) eqn:E.
    + constructor; [now constructor|]. constructor. exact E.
    + constructor; [exact IH|].
      apply insert_ordered_hd; [|exact Hhd]. now apply created_at_le_total.
Qed.

Lemma order_created_at_perm l : Permutation (order_created_at ascending l) l.
Proof.
  induction l as [|r l IH]; cbn; [reflexivity|].
  fold (order_created_at ascending l). rewrite insert_ordered_perm. now constructor.
Qed.

Lemma order_created_at_sorted l :
  Sorted (created_before ascending) (order_created_at ascending l).
Proof.
  induction l as [|r l IH]; cbn; [constructor|].
  now apply insert_ordered_sorted.
Qed.
End Ordering.

Lemma Sorted_weaken {A} (R R' : A -> A -> Prop) (l : list A) :
  (forall x y, R x y -> R' x y) -> Sorted R l -> Sorted R' l.
Proof.
  intros HR. induction 1 as [|x l _ IH Hhd]; constructor; [exact IH|].
  destruct Hhd; constructor. now apply HR.
Qed.

Lemma order_descending l : arrival_descending (order_created_at false l).
Proof.
  unfold arrival_descending.
  apply (Sorted_weaken (created_before false)); [|apply order_created_at_sorted].
  intros r1 r2. unfold created_before, created_at_le. lia.
Qed.

Lemma getMatchableUsers_run w :
  getMatchableUsers w
  = match store_select matchable false (db w) with
    | inl rows =>
        (Normal rows,
         {| db := db w; clock := clock w; dates := dates w;
            trace := request SelectMatchable :: trace w |})
    | inr error =>
        (Throw (Rejected error),
         {| db := db w; clock := clock w; dates := dates w;
            trace := console_error "Error fetching matchable users:"
                       :: request SelectMatchable :: trace w |})
    end.
Proof.
  cbv [getMatchableUsers select_ordered bind emit ret throw].
  cbn [db clock dates trace]. destruct (store_select matchable false (db w)); reflexivity.
Qed.

Lemma getAllRealUsers_run w :
  getAllRealUsers w
  = match store_select (fun r => Bool.eqb (UserData.is_synthetic (data r)) false)
                       false (db w) with
    | inl rows =>
        (Normal rows,
         {| db := db w; clock := clock w; dates := dates w;
            trace := request SelectRealUsers :: trace w |})
    | inr error =>
        (Throw (Rejected error),
         {| db := db w; clock := clock w; dates := dates w;
            trace := console_error "Error fetching users:"
                       :: request SelectRealUsers :: trace w |})
    end.
Proof.
  cbv [getAllRealUsers select_ordered bind emit ret throw].
  cbn [db clock dates trace].
  destruct (store_select _ false (db w)); reflexivity.
Qed.

(** The matchable query on a store that answers. *)
Lemma queries_latest_first_aux (w : World) :
  fault (db w) = None ->
  exists rows w',
    getMatchableUsers w = (Normal rows, w') /\
    Permutation rows (filter matchable (table (db w))) /\
    arrival_descending rows.
Proof.
  intros Hok. rewrite getMatchableUsers_run. unfold store_select. rewrite Hok.
  eexists. eexists. split; [reflexivity|].
  split; [apply order_created_at_perm | apply order_descending].
Qed.

(** C9 as worded fails: with two reviewed profiles that arrived at 1000 and
    at 2000, both queries return the later one first, which is not an
    ascending arrival order. *)
Lemma queries_not_earliest_first :
  (exists w', getMatchableUsers evening = (Normal [late; early], w')) /\
  (exists w', getAllRealUsers evening = (Normal [late; early], w')) /\
  ~ arrival_ascending [late; early].
Proof.
  split; [eexists; reflexivity|]. split; [eexists; reflexivity|].
  intros H. inversion H as [|r l _ Hhd]; subst.
  inversion Hhd as [|b l' Hle]; subst. cbn in Hle. lia.
Qed.

(** C9 (as the code has it): when the store answers, [getMatchableUsers]
    and [getAllRealUsers] return exactly the rows that pass their filters,
    ordered by [created_at] descending: latest arrival first. *)
Theorem queries_latest_first (w : World) :
  fault (db w) = None ->
  (exists rows w',
      getMatchableUsers w = (Normal rows, w') /\
      Permutation rows (filter matchable (table (db w))) /\
      arrival_descending rows) /\
  (exists rows w',
      getAllRealUsers w = (Normal rows, w') /\
      Permutation rows
        (filter (fun r => negb (UserData.is_synthetic (data r))) (table (db w))) /\
      arrival_descending rows).
Proof.
  intros Hok. split.
  - now apply queries_latest_first_aux.
  - rewrite getAllRealUsers_run. unfold store_select. rewrite Hok.
    eexists. eexists. split; [reflexivity|].
    split; [|apply order_descending].
    rewrite order_created_at_perm.
    rewrite (filter_ext (fun r => Bool.eqb (UserData.is_synthetic (data r)) false)
                        (fun r => negb (UserData.is_synthetic (data r))));
      [reflexivity|].
    intros r. now destruct (UserData.is_synthetic (data r)).
Qed.

Lemma queries_latest_first_witness :
  fault (db evening) = None /\
  exists rows w',
    getMatchableUsers evening = (Normal rows, w') /\
    Permutation rows (filter matchable (table (db evening))) /\
    arrival_descending rows.
Proof.
  split; [reflexivity|]. exact (proj1 (queries_latest_first evening eq_refl)).
Defined.

(** C10: every record stored by a submission is created with
    [quality_status = 'pending'], [should_match = false] and
    [is_synthetic = false]; it is in the table and [getMatchableUsers], run
    on the store as the submission left it, answers and does not return it. *)
Theorem submitted_record_is_not_matchable
        (formData : FormData.t) (w w' : World) (row : Row) :
  submitUserForm formData w = (Normal row, w') ->
  (UserData.quality_status (data row) = "pending" /\
   UserData.should_match (data row) = false /\
   UserData.is_synthetic (data row) = false) /\
  In row (table (db w')) /\
  matchable row = false /\
  exists rows w'',
    getMatchableUsers w' = (Normal rows, w'') /\ ~ In row rows.
Proof.
  intros E. destruct (fault (db w)) as [error|] eqn:Hf.
  - destruct (submitUserForm_rejected formData w error Hf) as (msg & w0 & E0 & _).
    rewrite E0 in E. discriminate E.
  - assert (Hok' : fault (db w') = None).
    { revert E.
      cbv [submitUserForm try_catch bind new_Date insert_single emit store_insert
             ret set_db].
      cbn [db clock dates trace]. rewrite Hf. intros E. injection E as _ <-. reflexivity. }
    destruct (submitUserForm_accepted formData w Hf)
      as (r & w0 & E0 & Ht & _ & _ & _ & _ & Hq & Hs & Hy & _).
    rewrite E0 in E. injection E as -> ->.
    assert (Hm : matchable row = false).
    { unfold matchable. now rewrite Hs. }
    split; [auto|]. split; [rewrite Ht; apply in_or_app; right; now left|].
    split; [exact Hm|].
    destruct (queries_latest_first_aux w' Hok') as (rows & w'' & Eq & Hp & _).
    exists rows, w''. split; [exact Eq|].
    intros Hin. apply (Permutation_in _ Hp) in Hin.
    apply filter_In in Hin as [_ Hin]. congruence.
Qed.

Lemma submitted_record_is_not_matchable_witness :
  exists row w',
    submitUserForm sample_response evening = (Normal row, w') /\
    In row (table (db w')) /\
    exists rows w'', getMatchableUsers w' = (Normal rows, w'') /\ ~ In row rows.
Proof.
  eexists. eexists. split; [reflexivity|].
  pose proof (submitted_record_is_not_matchable sample_response evening _ _ eq_refl) as H.
  split; [exact (proj1 (proj2 H)) | exact (proj2 (proj2 (proj2 H)))].
Defined.

(** ** Polling *)

(** One timer: the four ways [checkForMatches] can go. *)
Lemma checkForMatches_run c uid w :
  checkForMatches c uid w
  = match store_single uid (db w) with
    | inr error =>
        (Normal (setProcessing false c),
         poll_world w (db w)
           [ console_error "Error polling for matches:";
             console_error "Error fetching user:";
             request (SelectById uid) ])
    | inl userData =>
        match user_matches userData with
        | Some m =>
            (Normal (setProcessing false (setMatchData m c)),
             poll_world w (db w)
               [ console_log "Matches found!"; console_log "Polling attempt";
                 request (SelectById uid) ])
        | None =>
            if (maxAttempts <=? pollAttempts c)%nat
            then (Normal (setProcessing false c),
                  poll_world w (db w)
                    [ alert "Match calculation is taking longer than expected. Please check back later.";
                      console_log "Max polling attempts reached";
                      console_log "Polling attempt";
                      request (SelectById uid) ])
            else (Normal (setPollAttempts (fun prev => prev + 1)%nat c),
                  poll_world w (db w)
                    [ console_log "Polling attempt"; request (SelectById uid) ])
        end
    end.
Proof.
  cbv [checkForMatches getUserById select_single try_catch bind emit ret throw poll_world].
  cbn [db clock dates trace app].
  destruct (store_single uid (db w)) as [userData|error]; [|reflexivity].
  destruct (user_matches userData); [reflexivity|].
  destruct (maxAttempts <=? pollAttempts c)%nat; reflexivity.
Qed.

Lemma poll_step fuel env n c w uid :
  processing c = true -> userId c = Some uid ->
  poll (S fuel) env n c w
  = match checkForMatches c uid
            (poll_world w (env n (db w)) [setTimeout pollInterval]) with
    | (Normal c', w') => poll fuel env (S n) c' w'
    | (Throw _, w') => (c, w')
    end.
Proof.
  intros Hp Hu. cbn [poll]. rewrite Hp, Hu.
  cbv [bind emit set_db poll_world]. cbn [db clock dates trace app]. reflexivity.
Qed.

Lemma poll_stopped fuel env n c w :
  processing c = false -> poll fuel env n c w = (c, w).
Proof. intros Hp. destruct fuel; cbn [poll]; [reflexivity|]. now rewrite Hp. Qed.

Lemma reads_poll_world w s events :
  reads (poll_world w s events)
  = (List.length (filter (fun e => match e with request (SelectById _) => true | _ => false end)
                         events) + reads w)%nat.
Proof. unfold reads, poll_world. cbn [trace]. now rewrite filter_app, length_app. Qed.

Lemma alerted_poll_world w s events :
  alerted (poll_world w s events)
  = existsb (fun e => match e with alert _ => true | _ => false end) events || alerted w.
Proof. unfold alerted, poll_world. cbn [trace]. now rewrite existsb_app. Qed.

(** However the store behaves, a run started at [pollAttempts = 0] issues at
    most [maxAttempts + 1] reads. *)
Lemma poll_reads_bound fuel env n c w :
  (pollAttempts c <= maxAttempts)%nat ->
  (reads (snd (poll fuel env n c w)) + pollAttempts c <= reads w + maxAttempts + 1)%nat.
Proof.
  revert n c w. induction fuel as [|fuel IH]; intros n c w Hc; [cbn; lia|].
  destruct (processing c) eqn:Hp; [|rewrite poll_stopped by exact Hp; cbn; lia].
  destruct (userId c) as [uid|] eqn:Hu; [|cbn [poll]; rewrite Hp, Hu; cbn; lia].
  rewrite (poll_step _ _ _ _ _ uid Hp Hu), checkForMatches_run.
  cbn [db poll_world].
  destruct (store_single uid (env n (db w))) as [userData|error].
  - destruct (user_matches userData).
    + rewrite poll_stopped by reflexivity. cbn [snd]. unfold reads. cbn. fold (reads w). lia.
    + destruct (maxAttempts <=? pollAttempts c)%nat eqn:Hmax.
      * rewrite poll_stopped by reflexivity. cbn [snd]. unfold reads. cbn. fold (reads w). lia.
      * apply Nat.leb_gt in Hmax.
        match goal with
        | |- context [poll fuel env (S n) ?c' ?w'] => specialize (IH (S n) c' w')
        end.
        cbn [setPollAttempts pollAttempts] in IH. specialize (IH ltac:(lia)).
        unfold reads at 2 in IH. cbn in IH. fold (reads w) in IH. lia.
  - rewrite poll_stopped by reflexivity. cbn [snd]. unfold reads. cbn. fold (reads w). lia.
Qed.

(** With enough fuel for [maxAttempts + 1] timers the run is over: no timer
    is pending when [poll] returns. *)
Lemma poll_terminates fuel env n c w :
  (pollAttempts c <= maxAttempts)%nat ->
  (maxAttempts + 1 - pollAttempts c <= fuel)%nat ->
  processing (fst (poll fuel env n c w)) = false
  \/ userId (fst (poll fuel env n c w)) = None.
Proof.
  revert n c w. induction fuel as [|fuel IH]; intros n c w Hc Hfuel;
    [unfold maxAttempts in *; lia|].
  destruct (processing c) eqn:Hp; [|rewrite poll_stopped by exact Hp; now left].
  destruct (userId c) as [uid|] eqn:Hu; [|cbn [poll]; rewrite Hp, Hu; now right].
  rewrite (poll_step _ _ _ _ _ uid Hp Hu), checkForMatches_run.
  destruct (store_single uid _) as [userData|error];
    [destruct (user_matches userData);
     [|destruct (maxAttempts <=? pollAttempts c)%nat eqn:Hmax]|];
    try (rewrite poll_stopped by reflexivity; now left).
  apply Nat.leb_gt in Hmax.
  apply IH; cbn [setPollAttempts pollAttempts]; lia.
Qed.

(** A record that carries a match ends the run in the matched outcome. *)
Lemma polling_match_ends_matched fuel env n c w uid userData m :
  processing c = true -> userId c = Some uid ->
  store_single uid (env n (db w)) = inl userData ->
  user_matches userData = Some m ->
  let '(c', w') := poll (S fuel) env n c w in
  matchData c' = Some m /\ ending c' w' = MATCHED /\ reads w' = S (reads w).
Proof.
  intros Hp Hu Hrow Hm.
  rewrite (poll_step _ _ _ _ _ uid Hp Hu), checkForMatches_run.
  cbn [db poll_world]. rewrite Hrow, Hm.
  rewrite poll_stopped by reflexivity.
  split; [reflexivity|]. split; [reflexivity|].
  now rewrite !reads_poll_world.
Qed.

(** While the record stays unmatched and the store answers, a run started at
    [pollAttempts = a] reads once for every value a, a+1, ..., maxAttempts:
    the ceiling is tested after the read, with [>=] on a count that starts
    at 0. *)
Lemma poll_unmatched_run uid userData s k :
  store_single uid s = inl userData -> user_matches userData = None ->
  forall fuel n c w,
    db w = s -> processing c = true -> userId c = Some uid -> matchData c = None ->
    (pollAttempts c + k = maxAttempts)%nat -> (k < fuel)%nat ->
    let '(c', w') := poll fuel idle n c w in
    reads w' = (reads w + k + 1)%nat /\
    processing c' = false /\ matchData c' = None /\
    pollAttempts c' = maxAttempts /\ alerted w' = true.
Proof.
  intros Hrow Hnone. induction k as [|k IH]; intros fuel n c w Hdb Hp Hu Hm Hk Hfuel.
  - destruct fuel as [|fuel]; [lia|].
    rewrite (poll_step _ _ _ _ _ uid Hp Hu), checkForMatches_run.
    cbn [db poll_world]. unfold idle at 1. rewrite Hdb, Hrow, Hnone.
    replace (pollAttempts c) with maxAttempts by lia. cbn [Nat.leb maxAttempts].
    rewrite poll_stopped by reflexivity.
    repeat split; try reflexivity; try assumption.
    + rewrite !reads_poll_world. cbn. lia.
    + cbn [setProcessing pollAttempts]. lia.
  - destruct fuel as [|fuel]; [lia|].
    rewrite (poll_step _ _ _ _ _ uid Hp Hu), checkForMatches_run.
    cbn [db poll_world]. unfold idle at 1. rewrite Hdb, Hrow, Hnone.
    destruct (maxAttempts <=? pollAttempts c)%nat eqn:Hmax;
      [apply Nat.leb_le in Hmax; lia|].
    match goal with
    | |- context [poll fuel idle (S n) ?c' ?w'] =>
        specialize (IH fuel (S n) c' w' eq_refl Hp Hu Hm);
        destruct (poll fuel idle (S n) c' w') as [c'' w'']
    end.
    cbn [setPollAttempts pollAttempts] in IH.
    destruct (IH ltac:(lia) ltac:(lia)) as (Hr & Hrest).
    split; [|exact Hrest].
    rewrite Hr, !reads_poll_world. cbn. lia.
Qed.

(** C5, where the code departs from the claim: the subject's record exists
    and never receives a match.  The run sets 21 timers of 3000 ms and
    reads the record 21 times, one more than the ceiling of 20 attempts,
    before it ends in the timed-out outcome. *)
Theorem poll_reads_once_more_than_ceiling :
  let '(c', w') := poll 100 idle 0 just_submitted waiting in
  reads w' = 21%nat /\
  List.length (filter (fun e => match e with setTimeout 3000 => true | _ => false end)
                      (trace w')) = 21%nat /\
  (maxAttempts < reads w')%nat /\
  ending c' w' = TIMED_OUT /\
  pollAttempts c' = 20%nat.
Proof. vm_compute. repeat split; lia. Qed.

(** C7: when the read of the subject's record fails during polling, the
    error is logged, polling stops after that read (no further timer, no
    further read, whatever fuel is left), and the run shows no alert: the
    four events it adds are the timer, the read and the two error lines.
    So the run ends degraded, not timed out, also when an alert had been
    shown before the run began. *)
Theorem polling_error_ends_degraded
        (fuel : nat) (env : Environment) (n : nat) (c : Component) (w : World)
        (uid : uuid) (error : PostgrestError) :
  processing c = true -> userId c = Some uid ->
  store_single uid (env n (db w)) = inr error ->
  let '(c', w') := poll (S fuel) env n c w in
  c' = setProcessing false c /\
  trace w' = console_error "Error polling for matches:"
               :: console_error "Error fetching user:"
               :: request (SelectById uid) :: setTimeout pollInterval :: trace w /\
  reads w' = S (reads w) /\
  logged_error "Error polling for matches:" w' = true /\
  alerted w' = alerted w /\
  ending_of_run w c' w' <> TIMED_OUT /\
  (matchData c = None -> ending_of_run w c' w' = DEGRADED) /\
  (matchData c = None -> alerted w = false -> ending c' w' = DEGRADED).
Proof.
  intros Hp Hu Herr.
  rewrite (poll_step _ _ _ _ _ uid Hp Hu), checkForMatches_run.
  cbn [db poll_world]. rewrite Herr.
  rewrite poll_stopped by reflexivity.
  set (wf := poll_world (poll_world w _ _) _ _).
  assert (Ht : trace wf = console_error "Error polling for matches:"
                            :: console_error "Error fetching user:"
                            :: request (SelectById uid) :: setTimeout pollInterval
                            :: trace w) by reflexivity.
  assert (Hr : reads wf = S (reads w)).
  { subst wf. now rewrite !reads_poll_world. }
  assert (Hal : alerted wf = alerted w).
  { subst wf. now rewrite !alerted_poll_world. }
  assert (Hev : existsb (fun e => match e with alert _ => true | _ => false end)
                        (events_since w wf) = false).
  { unfold events_since. rewrite Ht. cbn [List.length].
    replace (S (S (S (S (List.length (trace w)))) ) - List.length (trace w))%nat
      with 4%nat by lia.
    reflexivity. }
  assert (He : ending_of_run w (setProcessing false c) wf
               = match matchData c with Some _ => MATCHED | None => DEGRADED end).
  { unfold ending_of_run. cbn [setProcessing processing matchData]. now rewrite Hev. }
  split; [reflexivity|]. split; [exact Ht|]. split; [exact Hr|].
  split; [reflexivity|]. split; [exact Hal|]. split; [|split].
  - rewrite He. destruct (matchData c); discriminate.
  - intros Hm. now rewrite He, Hm.
  - intros Hm Ha. unfold ending. cbn [setProcessing processing matchData].
    now rewrite Hm, Hal, Ha.
Qed.

Lemma polling_error_ends_degraded_witness :
  alerted alerted_earlier = true /\
  store_single 7%nat (outage_at_third 2%nat (db alerted_earlier)) = inr unavailable /\
  ending_of_run alerted_earlier
    (fst (poll 50 outage_at_third 2 third_poll alerted_earlier))
    (snd (poll 50 outage_at_third 2 third_poll alerted_earlier)) = DEGRADED.
Proof.
  split; [reflexivity|]. split; [reflexivity|].
  pose proof (polling_error_ends_degraded 49 outage_at_third 2 third_poll alerted_earlier
                7%nat unavailable eq_refl eq_refl eq_refl) as H.
  destruct (poll 50 outage_at_third 2 third_poll alerted_earlier) as [c' w'].
  exact (proj1 (proj2 (proj2 (proj2 (proj2 (proj2 (proj2 H)))))) eq_refl).
Defined.

(** ** The email pattern *)

Lemma append_nil_inv (s1 s2 : string) : (s1 ++ s2)%string = "" -> s1 = "" /\ s2 = "".
Proof. destruct s1; [now split | discriminate]. Qed.

Lemma append_cons_inv (s1 s2 : string) c s :
  (s1 ++ s2)%string = String c s ->
  (s1 = "" /\ s2 = String c s)
  \/ exists s1', s1 = String c s1' /\ s = (s1' ++ s2)%string.
Proof.
  destruct s1 as [|c1 s1]; cbn; intros E; [now left|].
  injection E as -> <-. right. now exists s1.
Qed.

Lemma denotes_Never_inv s : denotes Never s -> False.
Proof. inversion 1. Qed.

Lemma denotes_Empty_inv s : denotes Empty s -> s = "".
Proof. now inversion 1. Qed.

Lemma denotes_Class_inv accepts s :
  denotes (Class accepts) s -> exists c, s = String c "" /\ accepts c = true.
Proof. inversion 1; subst. eauto. Qed.

Lemma denotes_Seq_inv r1 r2 s :
  denotes (Seq r1 r2) s ->
  exists s1 s2, s = (s1 ++ s2)%string /\ denotes r1 s1 /\ denotes r2 s2.
Proof. inversion 1; subst. eauto. Qed.

Lemma denotes_Alt_inv r1 r2 s : denotes (Alt r1 r2) s -> denotes r1 s \/ denotes r2 s.
Proof. inversion 1; subst; auto. Qed.

Lemma denotes_Star_inv r s :
  denotes (Star r) s ->
  s = "" \/ exists s1 s2, s = (s1 ++ s2)%string /\ denotes r s1 /\ denotes (Star r) s2.
Proof. inversion 1; subst; [now left | right; eauto]. Qed.

Lemma nullable_denotes r : nullable r = true <-> denotes r "".
Proof.
  induction r; cbn [nullable].
  - split; [discriminate | intros H; destruct (denotes_Never_inv _ H)].
  - split; [constructor | reflexivity].
  - split; [discriminate|].
    intros H. apply denotes_Class_inv in H as (c & E & _). discriminate E.
  - rewrite andb_true_iff, IHr1, IHr2. split.
    + intros [H1 H2]. exact (denotes_Seq _ _ "" "" H1 H2).
    + intros H. apply denotes_Seq_inv in H as (s1 & s2 & E & H1 & H2).
      symmetry in E. apply append_nil_inv in E as [-> ->]. now split.
  - rewrite orb_true_iff, IHr1, IHr2. split.
    + intros [H|H]; [now apply denotes_Alt_l | now apply denotes_Alt_r].
    + apply denotes_Alt_inv.
  - split; [constructor | reflexivity].
Qed.

Lemma denotes_Star_cons_inv r c : forall s,
  denotes (Star r) (String c s) ->
  exists s1 s2, s = (s1 ++ s2)%string /\ denotes r (String c s1) /\ denotes (Star r) s2.
Proof.
  assert (H : forall r0 s0, denotes r0 s0 -> r0 = Star r -> forall s, s0 = String c s ->
              exists s1 s2, s = (s1 ++ s2)%string
                            /\ denotes r (String c s1) /\ denotes (Star r) s2).
  { induction 1 as [| | | | | |r' s1 s2 H1 _ H2 IH2]; try discriminate.
    intros Er s Es. injection Er as ->.
    apply append_cons_inv in Es as [[-> ->]|(s1' & -> & ->)].
    - now apply IH2.
    - now exists s1', s2. }
  intros s Hs. exact (H _ _ Hs eq_refl s eq_refl).
Qed.

Lemma derive_Seq_denotes c r1 r2 s :
  (forall s, denotes (derive c r1) s <-> denotes r1 (String c s)) ->
  denotes (Seq (derive c r1) r2) s
  <-> exists s1 s2, s = (s1 ++ s2)%string /\ denotes r1 (String c s1) /\ denotes r2 s2.
Proof.
  intros IH. split.
  - intros H. apply denotes_Seq_inv in H as (s1 & s2 & -> & H1 & H2).
    exists s1, s2. rewrite <- IH. auto.
  - intros (s1 & s2 & -> & H1 & H2). constructor; [now apply IH | exact H2].
Qed.

Lemma denotes_Seq_cons r1 r2 c s :
  denotes (Seq r1 r2) (String c s)
  <-> (exists s1 s2, s = (s1 ++ s2)%string /\ denotes r1 (String c s1) /\ denotes r2 s2)
      \/ (denotes r1 "" /\ denotes r2 (String c s)).
Proof.
  split.
  - intros H. apply denotes_Seq_inv in H as (s1 & s2 & E & H1 & H2). symmetry in E.
    apply append_cons_inv in E as [[-> ->]|(s1' & -> & ->)];
      [now right | left; now exists s1', s2].
  - intros [(s1 & s2 & -> & H1 & H2)|[H1 H2]].
    + exact (denotes_Seq _ _ _ _ H1 H2).
    + exact (denotes_Seq _ _ "" _ H1 H2).
Qed.

Lemma derive_denotes c r : forall s, denotes (derive c r) s <-> denotes r (String c s).
Proof.
  induction r; intros s; cbn [derive].
  - split; intros H; destruct (denotes_Never_inv _ H).
  - split; intros H; [destruct (denotes_Never_inv _ H)|].
    apply denotes_Empty_inv in H. discriminate H.
  - destruct (accepts c) eqn:Ea; split; intros H.
    + apply denotes_Empty_inv in H. subst s. now constructor.
    + apply denotes_Class_inv in H as (c' & E & _). injection E as <- ->. constructor.
    + destruct (denotes_Never_inv _ H).
    + apply denotes_Class_inv in H as (c' & E & Hc). injection E as <- ->. congruence.
  - rewrite denotes_Seq_cons. destruct (nullable r1) eqn:En.
    + split.
      * intros H. apply denotes_Alt_inv in H as [H|H].
        -- left. now apply (derive_Seq_denotes c r1 r2 s IHr1).
        -- right. split; [now apply nullable_denotes | now apply IHr2].
      * intros [H|[_ H]].
        -- apply denotes_Alt_l. now apply (derive_Seq_denotes c r1 r2 s IHr1).
        -- apply denotes_Alt_r. now apply IHr2.
    + rewrite (derive_Seq_denotes c r1 r2 s IHr1). split; [now left|].
      intros [H|[H _]]; [exact H|].
      apply nullable_denotes in H. congruence.
  - split; intros H; apply denotes_Alt_inv in H as [H|H];
      solve [ apply denotes_Alt_l; now apply IHr1 | apply denotes_Alt_r; now apply IHr2 ].
  - split.
    + intros H. apply denotes_Seq_inv in H as (s1 & s2 & -> & H1 & H2).
      apply IHr in H1. exact (denotes_Star_cons _ _ _ H1 H2).
    + intros H. apply denotes_Star_cons_inv in H as (s1 & s2 & -> & H1 & H2).
      constructor; [now apply IHr | exact H2].
Qed.

(** The matcher decides the pattern's language. *)
Lemma test_denotes r s : test r s = true <-> denotes r s.
Proof.
  revert r. induction s as [|c s IH]; intros r; cbn [test].
  - apply nullable_denotes.
  - rewrite IH. apply derive_denotes.
Qed.

Lemma denotes_Star_plain s : denotes (Star (Class not_space_at)) s <-> plain s = true.
Proof.
  split.
  - assert (H : forall r0 s0, denotes r0 s0 -> r0 = Star (Class not_space_at) ->
                plain s0 = true).
    { induction 1 as [| | | | | |r' s1 s2 H1 _ H2 IH2]; try discriminate; [reflexivity|].
      intros Er. injection Er as ->.
      apply denotes_Class_inv in H1 as (c & -> & Hc). cbn. rewrite Hc. now apply IH2. }
    intros Hs. exact (H _ _ Hs eq_refl).
  - induction s as [|c s IH]; [constructor|].
    cbn. intros Hp. apply andb_true_iff in Hp as [Hc Hp].
    apply (denotes_Star_cons _ (String c "") s); [now constructor | now apply IH].
Qed.

Lemma denotes_run s : denotes (Plus (Class not_space_at)) s <-> plain_part s.
Proof.
  unfold Plus, plain_part. split.
  - intros H. apply denotes_Seq_inv in H as (s1 & s2 & -> & H1 & H2).
    apply denotes_Class_inv in H1 as (c & -> & Hc). apply denotes_Star_plain in H2.
    cbn. split; [discriminate|]. now rewrite Hc.
  - intros [Hne Hp]. destruct s as [|c s]; [congruence|].
    cbn in Hp. apply andb_true_iff in Hp as [Hc Hp].
    apply (denotes_Seq _ _ (String c "") s); [now constructor|].
    now apply denotes_Star_plain.
Qed.

Lemma emailRegex_denotes (email : string) :
  denotes emailRegex email
  <-> exists local domain tld,
        email = (local ++ "@" ++ domain ++ "." ++ tld)%string
        /\ plain_part local /\ plain_part domain /\ plain_part tld.
Proof.
  unfold emailRegex. split.
  - intros H.
    apply denotes_Seq_inv in H as (l & s1 & -> & Hl & H).
    apply denotes_Seq_inv in H as (a & s2 & -> & Ha & H).
    apply denotes_Seq_inv in H as (d & s3 & -> & Hd & H).
    apply denotes_Seq_inv in H as (p & t & -> & Hp & Ht).
    apply denotes_Class_inv in Ha as (c & -> & Hc).
    apply denotes_Class_inv in Hp as (c' & -> & Hc').
    apply Ascii.eqb_eq in Hc, Hc'. subst c c'.
    exists l, d, t. rewrite <- !denotes_run. auto.
  - intros (l & d & t & -> & Hl & Hd & Ht). rewrite <- denotes_run in Hl, Hd, Ht.
    apply denotes_Seq; [exact Hl|].
    apply (denotes_Seq _ _ "@"); [constructor; reflexivity|].
    apply denotes_Seq; [exact Hd|].
    apply (denotes_Seq _ _ "."); [constructor; reflexivity | exact Ht].
Qed.

(** X1: the pattern accepts exactly the strings [local@domain.tld] whose
    three parts are non-empty and free of white space and of [@]. *)
Theorem emailRegex_shape (email : string) :
  test emailRegex email = true
  <-> exists local domain tld,
        email = (local ++ "@" ++ domain ++ "." ++ tld)%string
        /\ plain_part local /\ plain_part domain /\ plain_part tld.
Proof.
  split.
  - intros H. apply emailRegex_denotes, test_denotes, H.
  - intros H. apply test_denotes, emailRegex_denotes, H.
Qed.

(** ** The form: input handlers *)

Lemma toggle_time_In time times t :
  In t (toggle_time time times)
  <-> (t = time /\ ~ In time times) \/ (t <> time /\ In t times).
Proof.
  unfold toggle_time. destruct (existsb (String.eqb time) times) eqn:E.
  - apply existsb_exists in E as (t' & Hin & Heq). apply String.eqb_eq in Heq. subst t'.
    rewrite filter_In, negb_true_iff, String.eqb_neq. tauto.
  - assert (Hn : ~ In time times).
    { intros Hin. apply Bool.not_true_iff_false in E. apply E, existsb_exists.
      exists time. split; [exact Hin | apply String.eqb_refl]. }
    rewrite in_app_iff. cbn [In]. split.
    + intros [H|[<-|[]]]; [right; split; [congruence | exact H] | now left].
    + intros [[-> _]|[_ H]]; [right; now left | now left].
Qed.

Lemma toggle_time_NoDup time times : NoDup times -> NoDup (toggle_time time times).
Proof.
  intros Hnd. unfold toggle_time. destruct (existsb (String.eqb time) times) eqn:E.
  - now apply NoDup_filter.
  - apply NoDup_app; [exact Hnd | repeat constructor; intros [] |].
    intros t Hin [Et|[]]. subst t.
    apply Bool.not_true_iff_false in E. apply E, existsb_exists.
    exists time. split; [exact Hin | apply String.eqb_refl].
Qed.

(** X2: a click on a preferred-time button flips the membership of that time
    and of no other, and never introduces a duplicate; on a list without
    duplicates, a second click restores the selection up to order. *)
Theorem toggle_time_flips (time : string) (times : list string) :
  (In time (toggle_time time times) <-> ~ In time times) /\
  (forall t, t <> time -> (In t (toggle_time time times) <-> In t times)) /\
  (NoDup times -> NoDup (toggle_time time times)) /\
  (NoDup times -> Permutation (toggle_time time (toggle_time time times)) times).
Proof.
  split; [|split; [|split]].
  - rewrite toggle_time_In. tauto.
  - intros t Hne. rewrite toggle_time_In. tauto.
  - apply toggle_time_NoDup.
  - intros Hnd. apply NoDup_Permutation; [now do 2 apply toggle_time_NoDup | exact Hnd |].
    intros t. rewrite !toggle_time_In.
    destruct (string_dec t time) as [->|Hne]; [|tauto].
    destruct (in_dec string_dec time times); tauto.
Qed.

Lemma toggle_time_flips_witness :
  NoDup ["Morning"; "Evening"] /\
  Permutation (toggle_time "Morning" (toggle_time "Morning" ["Morning"; "Evening"]))
              ["Morning"; "Evening"].
Proof.
  assert (H : NoDup ["Morning"; "Evening"]).
  { repeat constructor; cbn; intuition discriminate. }
  split; [exact H|].
  exact (proj2 (proj2 (proj2 (toggle_time_flips "Morning" ["Morning"; "Evening"]))) H).
Defined.

(** The field names of the form data. *)
Lemma get_entries_defined formData field :
  get (FormData.entries formData) field <> JSUndefined ->
  In field (map fst (FormData.entries formData)).
Proof.
  unfold get. destruct (find _ _) as [kv|] eqn:E; [|congruence].
  apply find_some in E as [Hin Heq]. apply String.eqb_eq in Heq. subst field.
  intros _. now apply in_map.
Qed.

Ltac each_field H :=
  cbn [map fst FormData.entries In] in H;
  repeat (destruct H as [H|H]; [subst|]); [..|destruct H].

Lemma get_set_same (o : JSObject) key value :
  In key (map fst o) -> get (set o key value) key = value.
Proof.
  intros Hin. unfold set.
  assert (E : existsb (fun kv => String.eqb (fst kv) key) o = true).
  { apply existsb_exists. apply in_map_iff in Hin as (kv & <- & Hin).
    exists kv. split; [exact Hin | apply String.eqb_refl]. }
  rewrite E. clear E. unfold get.
  induction o as [|kv o IH]; [destruct Hin|].
  cbn [map find fst]. destruct (String.eqb (fst kv) key) eqn:Ek.
  - cbn [fst]. now rewrite Ek.
  - rewrite Ek. apply IH. destruct Hin as [Hin|Hin]; [|exact Hin].
    apply String.eqb_neq in Ek. congruence.
Qed.

Lemma get_set_other (o : JSObject) key value other :
  other <> key -> get (set o key value) other = get o other.
Proof.
  intros Hne. unfold set, get.
  destruct (existsb _ o).
  - induction o as [|kv o IH]; [reflexivity|].
    cbn [map find]. destruct (String.eqb (fst kv) key) eqn:Ek.
    + cbn [fst]. apply String.eqb_eq in Ek.
      assert (En : String.eqb (fst kv) other = false)
        by (apply String.eqb_neq; congruence).
      now rewrite En.
    + destruct (String.eqb (fst kv) other); [reflexivity | exact IH].
  - induction o as [|kv o IH]; cbn [app find fst].
    + assert (En : String.eqb key other = false)
        by (apply String.eqb_neq; congruence).
      now rewrite En.
    + destruct (String.eqb (fst kv) other); [reflexivity | exact IH].
Qed.

(** The typed update is the update of the object. *)
Lemma entries_updateFormData field value prev :
  holds field value prev = true ->
  FormData.entries (updateFormData field value prev)
  = set (FormData.entries prev) field value.
Proof.
  intros Hh.
  assert (Hin : In field (map fst (FormData.entries prev))).
  { apply get_entries_defined. unfold holds in Hh.
    destruct (get (FormData.entries prev) field); congruence. }
  destruct prev as [? ? ? age]. destruct age;
    each_field Hin; destruct value; try discriminate Hh; reflexivity.
Qed.

(** X3: [updateFormData] is a keyed store on the form data: a value of the
    field's type is read back under that field, and every other field keeps
    its value. *)
Theorem updateFormData_get_set (field : string) (value : JSValue) (prev : FormData.t) :
  holds field value prev = true ->
  get (FormData.entries (updateFormData field value prev)) field = value /\
  forall other, other <> field ->
    get (FormData.entries (updateFormData field value prev)) other
    = get (FormData.entries prev) other.
Proof.
  intros Hh.
  assert (Hin : In field (map fst (FormData.entries prev))).
  { apply get_entries_defined. unfold holds in Hh.
    destruct (get (FormData.entries prev) field); congruence. }
  rewrite (entries_updateFormData _ _ _ Hh). split.
  - now apply get_set_same.
  - intros other Hne. now apply get_set_other.
Qed.

Lemma updateFormData_get_set_witness :
  holds "agency" (JSNumber 9%float) initialFormData = true /\
  get (FormData.entries (updateFormData "agency" (JSNumber 9%float) initialFormData)) "agency"
  = JSNumber 9%float.
Proof.
  split; [reflexivity|].
  exact (proj1 (updateFormData_get_set "agency" (JSNumber 9%float) initialFormData eq_refl)).
Defined.

(** ** The form: validation and navigation *)

Lemma N2f_below_20 n : (n < 20)%nat -> (N2f n <? 20)%float = true.
Proof. do 20 (destruct n as [|n]; [reflexivity|]). lia. Qed.

Lemma long_enough s : (js_length s <? 20)%float = false -> (20 <= String.length s)%nat.
Proof.
  intros H. destruct (le_lt_dec 20 (String.length s)) as [Hle|Hlt]; [exact Hle|].
  unfold js_length in H. rewrite N2f_below_20 in H by exact Hlt. discriminate H.
Qed.

Lemma falsy_non_empty s : falsy s = negb (non_empty s).
Proof. reflexivity. Qed.

(** X4: [validateCurrentStep] returns the verdict of the current step; an
    accepted step leaves the world untouched, a refused one shows exactly
    one alert and nothing else; the store is never consulted. *)
Theorem validateCurrentStep_verdict (f : SurveyForm) (w : World) :
  if accepts_step (currentStep f) (formData f)
  then validateCurrentStep f w = (Normal true, w)
  else exists msg,
      validateCurrentStep f w = (Normal false, poll_world w (db w) [alert msg]).
Proof.
  unfold validateCurrentStep, accepts_step, poll_world.
  rewrite !falsy_non_empty.
  destruct (currentStep f) as [|[|[|[|[|[|n]]]]]]; try reflexivity;
    repeat match goal with
           | |- context [non_empty ?s] => destruct (non_empty s)
           end;
    cbn [negb orb andb];
    try (eexists; reflexivity);
    repeat match goal with
           | |- context [test ?r ?s] => destruct (test r s)
           | |- context [(?x <? 20)%float] => destruct (x <? 20)%float
           end;
    cbn [negb orb andb]; first [reflexivity | eexists; reflexivity].
Qed.

Lemma validateCurrentStep_result f w :
  exists w', validateCurrentStep f w
             = (Normal (accepts_step (currentStep f) (formData f)), w')
             /\ db w' = db w.
Proof.
  pose proof (validateCurrentStep_verdict f w) as H.
  destruct (accepts_step (currentStep f) (formData f)).
  - now exists w.
  - destruct H as (msg & H). eexists. split; [exact H | reflexivity].
Qed.

(** X5: what the accepted steps guarantee about the data: names and email
    filled and the email of the shape local@domain.tld (step 1); the career
    and achievements answers at least 20 characters long and the skills
    answer filled (step 2); the two vision answers at least 20 characters
    long (step 3); the three values answers filled (step 5).  Steps 4 and 6
    accept anything. *)
Theorem accepts_step_content (formData : FormData.t) :
  (accepts_step 1 formData = true ->
   FormData.firstName formData <> "" /\ FormData.lastName formData <> "" /\
   exists local domain tld,
     FormData.email formData = (local ++ "@" ++ domain ++ "." ++ tld)%string
     /\ plain_part local /\ plain_part domain /\ plain_part tld) /\
  (accepts_step 2 formData = true ->
   (20 <= String.length (FormData.jobCareer formData))%nat /\
   (20 <= String.length (FormData.lifeAchievements formData))%nat /\
   FormData.skillsAbilities formData <> "") /\
  (accepts_step 3 formData = true ->
   (20 <= String.length (FormData.dreamBuilding formData))%nat /\
   (20 <= String.length (FormData.communitySpace formData))%nat) /\
  (accepts_step 5 formData = true ->
   FormData.coreValues formData <> "" /\ FormData.qualitiesSeek formData <> "" /\
   FormData.dealBreakers formData <> "") /\
  accepts_step 4 formData = true /\ accepts_step 6 formData = true.
Proof.
  unfold accepts_step, non_empty.
  split; [|split; [|split; [|split; [|split; reflexivity]]]]; intros Hok;
    repeat match goal with
           | Ha : _ && _ = true |- _ => apply andb_true_iff in Ha; destruct Ha
           end;
    repeat match goal with
           | Hn : negb (String.eqb _ "") = true |- _ =>
               apply negb_true_iff, String.eqb_neq in Hn
           | Hl : negb (_ <? 20)%float = true |- _ =>
               apply negb_true_iff, long_enough in Hl
           end;
    repeat (split; try assumption).
  now apply emailRegex_denotes, test_denotes.
Qed.

Lemma accepts_step_content_witness :
  accepts_step 2 sample_response = true /\
  (20 <= String.length (FormData.jobCareer sample_response))%nat.
Proof.
  split; [reflexivity|].
  exact (proj1 (proj1 (proj2 (accepts_step_content sample_response)) eq_refl)).
Defined.

(** ** The form: submission *)

(** The world a successful insert leaves behind. *)
Lemma submitUserForm_stores formData w :
  fault (db w) = None ->
  exists row,
    submitUserForm formData w
    = (Normal row,
       {| db := {| table := table (db w) ++ [row]; fault := None;
                   next_id := S (next_id (db w)) |};
          clock := clock w; dates := S (S (S (dates w)));
          trace := console_log "Successfully submitted user data:"
                     :: request Insert :: trace w |}) /\
    id row = next_id (db w) /\
    user_matches row = None /\
    UserData.quality_metrics (data row)
    = {| Quality.completeness := calculateCompleteness formData;
         Quality.response_length_avg := calculateAvgResponseLength (freeResponses formData);
         Quality.consistency_score := calculateConsistency (mcResponses formData) |} /\
    UserData.attribute_scores (data row) = attributeScores formData /\
    (UserData.email (data row) = FormData.email formData /\
     UserData.first_name (data row) = FormData.firstName formData /\
     UserData.last_name (data row) = FormData.lastName formData /\
     UserData.age (data row) = FormData.age formData) /\
    (FormResponses.submitted_at (UserData.form_responses (data row)) = clock w (dates w) /\
     UserData.created_at (data row) = clock w (S (dates w)) /\
     UserData.updated_at (data row) = clock w (S (S (dates w)))) /\
    (FormResponses.mc (UserData.form_responses (data row)) = UserData.mc_responses (data row) /\
     FormResponses.free (UserData.form_responses (data row))
     = UserData.free_responses (data row) /\
     UserData.mc_responses (data row) = mcResponses formData /\
     UserData.free_responses (data row) = freeResponses formData).
Proof.
  intros Hok.
  cbv [submitUserForm try_catch bind new_Date insert_single emit store_insert
         ret set_db].
  cbn [db clock dates trace]. rewrite Hok.
  eexists. split; [reflexivity|]. cbn. repeat split; reflexivity.
Qed.

Lemma submitUserForm_refused formData w error :
  fault (db w) = Some error ->
  submitUserForm formData w
  = (Throw (Error (if String.eqb (message error) "" then "Failed to submit to Supabase"
                   else message error)),
     {| db := db w; clock := clock w; dates := S (S (S (dates w)));
        trace := console_error "Error submitting form:"
                   :: console_error "Supabase error details:"
                   :: request Insert :: trace w |}).
Proof.
  intros Hko.
  cbv [submitUserForm try_catch bind new_Date insert_single emit store_insert
         ret throw set_db].
  cbn [db clock dates trace]. rewrite Hko. reflexivity.
Qed.

(** X6: when the store rejects the insert, [submitUserForm] throws an [Error]
    whose message is the store's message, or the fixed text 'Failed to submit
    to Supabase' when the store gave none; the message is never empty, the
    failure is logged twice on the error console, and the store is unchanged. *)
Theorem submitUserForm_error_message (formData : FormData.t) (w : World)
        (error : PostgrestError) :
  fault (db w) = Some error ->
  exists msg w',
    submitUserForm formData w = (Throw (Error msg), w') /\
    msg <> "" /\
    (message error <> "" -> msg = message error) /\
    (message error = "" -> msg = "Failed to submit to Supabase") /\
    db w' = db w /\
    List.length (filter (fun e => match e with console_error _ => true | _ => false end)
                        (trace w'))
    = (2 + List.length (filter (fun e => match e with console_error _ => true
                                                  | _ => false end)
                               (trace w)))%nat.
Proof.
  intros Hko. rewrite (submitUserForm_refused _ _ _ Hko).
  eexists. eexists. split; [reflexivity|].
  destruct (String.eqb (message error) "") eqn:E.
  - apply String.eqb_eq in E. repeat split; try reflexivity; try discriminate; congruence.
  - apply String.eqb_neq in E. repeat split; try reflexivity; try assumption; congruence.
Qed.

Lemma submitUserForm_error_message_witness :
  exists msg w',
    submitUserForm sample_response
      {| db := {| table := []; fault := Some {| message := ""; details := ""; hint := "";
                                               code := "500" |};
                  next_id := 1%nat |};
         clock := fun _ => 0; dates := 0%nat; trace := [] |}
    = (Throw (Error msg), w') /\ msg = "Failed to submit to Supabase".
Proof.
  destruct (submitUserForm_error_message sample_response
              {| db := {| table := []; fault := Some {| message := ""; details := "";
                                                       hint := ""; code := "500" |};
                          next_id := 1%nat |};
                 clock := fun _ => 0; dates := 0%nat; trace := [] |}
              _ eq_refl) as (msg & w' & E & _ & _ & Hd & _).
  exists msg, w'. split; [exact E | exact (Hd eq_refl)].
Defined.

(** What [handleSubmit] does on the last step. *)
Lemma handleSubmit_run f w :
  currentStep f = totalSteps ->
  match fault (db w) with
  | None =>
      exists row w',
        handleSubmit f w
        = (Normal (setLoading false
                     (setSession
                        {| submitted := true; processing := true; userId := Some (id row);
                           matchData := matchData (session f);
                           pollAttempts := pollAttempts (session f) |}
                        (setLoading true f))), w') /\
        db w' = {| table := table (db w) ++ [row]; fault := None;
                   next_id := S (next_id (db w)) |} /\
        id row = next_id (db w) /\ user_matches row = None /\
        inserts w' = S (inserts w) /\ alerted w' = alerted w /\
        UserData.quality_metrics (data row)
        = {| Quality.completeness := calculateCompleteness (formData f);
             Quality.response_length_avg :=
               calculateAvgResponseLength (freeResponses (formData f));
             Quality.consistency_score := calculateConsistency (mcResponses (formData f)) |}
  | Some error =>
      exists w',
        handleSubmit f w = (Normal (setLoading false (setLoading true f)), w') /\
        db w' = db w /\ alerted w' = true /\ reads w' = reads w
  end.
Proof.
  intros Hstep. unfold handleSubmit. rewrite Hstep. cbn [Nat.eqb totalSteps negb].
  destruct (fault (db w)) as [error|] eqn:Hf.
  - cbv [bind try_catch emit ret]. cbn [db clock dates trace].
    rewrite submitUserForm_refused with (error := error) by exact Hf.
    eexists. split; [reflexivity|]. repeat split; reflexivity.
  - cbv [bind try_catch emit ret]. cbn [db clock dates trace].
    destruct (submitUserForm_stores (formData f)
                {| db := db w; clock := clock w; dates := dates w;
                   trace := console_log "Submitting form data:" :: trace w |} Hf)
      as (row & E & Hid & Hm & Hq & _).
    cbn [db clock dates trace] in E. rewrite E.
    eexists. eexists. split; [reflexivity|]. repeat split; assumption || reflexivity.
Qed.

(** ** The form: what every session keeps *)

Lemma poll_session fuel env : forall n c w,
  submitted (fst (poll fuel env n c w)) = submitted c /\
  userId (fst (poll fuel env n c w)) = userId c /\
  ((pollAttempts c <= maxAttempts)%nat ->
   (pollAttempts (fst (poll fuel env n c w)) <= maxAttempts)%nat) /\
  (processing c = false -> fst (poll fuel env n c w) = c).
Proof.
  induction fuel as [|fuel IH]; intros n c w; [cbn; auto|].
  destruct (processing c) eqn:Hp;
    [|rewrite poll_stopped by exact Hp; cbn; repeat split; auto; discriminate].
  destruct (userId c) as [uid|] eqn:Hu;
    [|cbn [poll]; rewrite Hp, Hu; cbn; rewrite Hu; repeat split; auto; discriminate].
  rewrite (poll_step _ _ _ _ _ uid Hp Hu), checkForMatches_run.
  destruct (store_single uid _) as [userData|error];
    [destruct (user_matches userData);
     [|destruct (maxAttempts <=? pollAttempts c)%nat eqn:Hmax]|];
    try (rewrite poll_stopped by reflexivity; cbn;
         repeat split; auto; discriminate).
  apply Nat.leb_gt in Hmax.
  match goal with
  | |- context [poll fuel env (S n) ?c' ?w'] =>
      destruct (IH (S n) c' w') as (Hs & Hi & Ha & _)
  end.
  cbn [setPollAttempts submitted userId pollAttempts] in Hs, Hi, Ha.
  rewrite Hs, Hi. repeat split; auto; [intros _; apply Ha; lia | discriminate].
Qed.

Lemma renders_In field inputs : renders field inputs = true -> In field inputs.
Proof.
  unfold renders. rewrite existsb_exists. intros (x & Hin & E).
  apply String.eqb_eq in E. now subst.
Qed.

Ltac each_input H :=
  apply renders_In in H; cbn [In] in H;
  repeat (destruct H as [H|H]; [subst|]); [..|destruct H].

Ltac each_step s :=
  destruct s as [|[|[|[|[|[|[|s]]]]]]].

(** What an edit of a text input leaves alone. *)
Lemma typing_frame step field text formData :
  renders field (text_inputs step) = true ->
  likert_fields (updateFormData field (JSString text) formData) = likert_fields formData /\
  FormData.preferredTimes (updateFormData field (JSString text) formData)
  = FormData.preferredTimes formData /\
  FormData.age (updateFormData field (JSString text) formData) = FormData.age formData /\
  forall s, s <> step ->
    accepts_step s (updateFormData field (JSString text) formData)
    = accepts_step s formData.
Proof.
  intros H. destruct formData as [? ? ? age]. destruct age;
    each_step step; cbn [text_inputs] in H; try discriminate H;
    each_input H;
    (split; [reflexivity|]; split; [reflexivity|]; split; [reflexivity|];
     intros s Hs; each_step s; first [reflexivity | congruence]).
Qed.

Lemma scale_frame step field num formData :
  renders field (scales step) = true ->
  Likert num -> SurveyResponse_inv formData ->
  SurveyResponse_inv (updateFormData field (JSNumber num) formData) /\
  FormData.preferredTimes (updateFormData field (JSNumber num) formData)
  = FormData.preferredTimes formData /\
  FormData.age (updateFormData field (JSNumber num) formData) = FormData.age formData /\
  forall s, accepts_step s (updateFormData field (JSNumber num) formData)
            = accepts_step s formData.
Proof.
  intros H Hnum Hinv. destruct formData as [? ? ? age].
  unfold SurveyResponse_inv, likert_fields in Hinv. cbn in Hinv. split_Forall.
  destruct age; each_step step; cbn [scales] in H; try discriminate H;
    each_input H;
    (split; [unfold SurveyResponse_inv; repeat (apply Forall_cons; [assumption|]);
             apply Forall_nil|];
     split; [reflexivity|]; split; [reflexivity|];
     intros s; each_step s; reflexivity).
Qed.

Lemma other_frame value formData field :
  field = "age" \/ field = "preferredTimes" ->
  likert_fields (updateFormData field value formData) = likert_fields formData /\
  forall s, accepts_step s (updateFormData field value formData) = accepts_step s formData.
Proof.
  destruct formData as [? ? ? age].
  intros [->| ->]; (split; [|intros s; each_step s]); destruct value, age; reflexivity.
Qed.

Lemma nth_error_likert button num : nth_error likert_scale button = Some num -> Likert num.
Proof. intros H. apply nth_error_In in H. exact H. Qed.

Lemma session_inv_initial : session_inv initialForm.
Proof.
  unfold session_inv, initialForm, totalSteps, maxAttempts. cbn.
  repeat split; try lia; try discriminate.
  - unfold SurveyResponse_inv, likert_fields, initialFormData.
    repeat (apply Forall_cons; [on_scale|]). apply Forall_nil.
  - intros step Hs. cbn [currentStep] in Hs. lia.
  - cbn. constructor.
  - intros t [].
Qed.

Lemma session_inv_setFormData f g :
  session_inv f ->
  SurveyResponse_inv (g (formData f)) ->
  (forall s, (1 <= s < currentStep f)%nat -> accepts_step s (g (formData f)) = true) ->
  times_ok (g (formData f)) -> age_ok (g (formData f)) ->
  session_inv (setFormData g f).
Proof.
  intros (Hstep & Hload & _ & _ & _ & _ & Hrest) Hl Hv Ht Ha.
  unfold session_inv, validated. cbn [setFormData currentStep loading formData session].
  auto 10.
Qed.

Lemma session_inv_setCurrentStep f n :
  session_inv f -> submitted (session f) = false ->
  (1 <= n <= totalSteps)%nat ->
  (forall s, (1 <= s < n)%nat -> accepts_step s (formData f) = true) ->
  session_inv (setCurrentStep n f).
Proof.
  intros (_ & Hload & Hl & _ & Ht & Ha & Hpa & Hns & _) Hsub Hn Hv.
  unfold session_inv, validated.
  cbn [setCurrentStep currentStep loading formData session].
  repeat (split; [assumption|]). rewrite Hsub. discriminate.
Qed.

Lemma session_inv_dispatch a f w f' w' :
  session_inv f -> dispatch a f w = (Normal f', w') -> session_inv f'.
Proof.
  intros Hinv.
  pose proof Hinv as (Hstep & Hload & Hlik & Hval & Htimes & Hage & Hpa & Hns & Hs).
  unfold dispatch. destruct (submitted (session f)) eqn:Hsub.
  { intros E. injection E as <- _. exact Hinv. }
  destruct a.
  - (* a text input *)
    destruct (renders field (text_inputs (currentStep f))) eqn:Hr;
      intros E; injection E as <- _; [|exact Hinv].
    destruct (typing_frame _ _ text (formData f) Hr) as (Hl & Ht & Ha & Hv).
    apply session_inv_setFormData; [exact Hinv | | | |].
    + unfold SurveyResponse_inv. now rewrite Hl.
    + intros s Hlt. rewrite Hv by lia. now apply Hval.
    + unfold times_ok. now rewrite Ht.
    + unfold age_ok. now rewrite Ha.
  - (* the age input *)
    destruct (currentStep f =? 1)%nat; intros E; injection E as <- _; [|exact Hinv].
    destruct (other_frame (or_null parsed) (formData f) "age" (or_introl eq_refl))
      as (Hl & Hv).
    apply session_inv_setFormData; [exact Hinv | | | |].
    + unfold SurveyResponse_inv. now rewrite Hl.
    + intros s Hlt. rewrite Hv. now apply Hval.
    + unfold or_null. destruct (ToBoolean (JSNumber parsed)); exact Htimes.
    + unfold age_ok, or_null. destruct (ToBoolean (JSNumber parsed)) eqn:Et; cbn; auto.
  - (* a preferred-time button *)
    destruct ((currentStep f =? 1)%nat && renders time time_buttons) eqn:Hr;
      intros E; injection E as <- _; [|exact Hinv].
    apply andb_true_iff in Hr as [_ Hr]. apply renders_In in Hr.
    destruct (other_frame (JSArray (toggle_time time (FormData.preferredTimes (formData f))))
                (formData f) "preferredTimes" (or_intror eq_refl)) as (Hl & Hv).
    apply session_inv_setFormData; [exact Hinv | | | |].
    + unfold SurveyResponse_inv. now rewrite Hl.
    + intros s Hlt. rewrite Hv. now apply Hval.
    + split; cbn.
      * apply toggle_time_NoDup, Htimes.
      * intros t Ht. apply toggle_time_In in Ht as [[-> _]|[_ Ht]];
          [exact Hr | now apply Htimes].
    + destruct (formData f) as [? ? ? age]. destruct age; exact Hage.
  - (* a button of a scale *)
    destruct (nth_error likert_scale button) as [num|] eqn:Hn;
      [|intros E; injection E as <- _; exact Hinv].
    destruct (renders field (scales (currentStep f))) eqn:Hr;
      intros E; injection E as <- _; [|exact Hinv].
    destruct (scale_frame _ _ num (formData f) Hr (nth_error_likert _ _ Hn) Hlik)
      as (Hl & Ht & Ha & Hv).
    apply session_inv_setFormData; [exact Hinv | exact Hl | | |].
    + intros s Hlt. rewrite Hv. now apply Hval.
    + unfold times_ok. now rewrite Ht.
    + unfold age_ok. now rewrite Ha.
  - (* Next *)
    destruct (currentStep f <? totalSteps)%nat eqn:Hlt;
      [|intros E; injection E as <- _; exact Hinv].
    unfold handleNext, bind.
    destruct (validateCurrentStep_result f w) as (w1 & -> & _).
    rewrite Hlt. apply Nat.ltb_lt in Hlt.
    destruct (accepts_step (currentStep f) (formData f)) eqn:Hacc;
      cbn [andb]; intros E; injection E as <- _; [|exact Hinv].
    apply session_inv_setCurrentStep; [exact Hinv | exact Hsub | lia |].
    intros s Hs'. destruct (Nat.eq_dec s (currentStep f)) as [->|Hne];
      [exact Hacc | apply Hval; lia].
  - (* Back *)
    destruct (currentStep f =? 1)%nat eqn:H1; intros E; injection E as <- _; [exact Hinv|].
    apply Nat.eqb_neq in H1. unfold handleBack.
    assert (Hgt : (1 <? currentStep f)%nat = true) by (apply Nat.ltb_lt; lia).
    rewrite Hgt.
    apply session_inv_setCurrentStep; [exact Hinv | exact Hsub | lia |].
    intros s Hs'. apply Hval. lia.
  - (* Submit *)
    destruct ((currentStep f <? totalSteps)%nat || loading f) eqn:Hg;
      [intros E; injection E as <- _; exact Hinv|].
    apply orb_false_iff in Hg as [Hg _]. apply Nat.ltb_ge in Hg.
    assert (Hlast : currentStep f = totalSteps) by lia.
    pose proof (handleSubmit_run f w Hlast) as Hrun.
    destruct (fault (db w)).
    + destruct Hrun as (w1 & -> & _). intros E. injection E as <- _.
      unfold session_inv, validated, setLoading.
      cbn [currentStep loading formData session]. rewrite Hsub.
      repeat (split; [first [assumption | reflexivity]|]). discriminate.
    + destruct Hrun as (row & w1 & -> & _). intros E. injection E as <- _.
      unfold session_inv, validated, setLoading, setSession.
      cbn [currentStep loading formData session submitted processing userId
             matchData pollAttempts].
      repeat (split; [assumption || reflexivity|]).
      split; [discriminate|]. intros _. split; [exact Hlast | discriminate].
Qed.

Lemma session_inv_poll f fuel env n w :
  session_inv f -> session_inv (setSession (fst (poll fuel env n (session f) w)) f).
Proof.
  intros (Hstep & Hload & Hlik & Hval & Htimes & Hage & Hpa & Hns & Hs).
  destruct (poll_session fuel env n (session f) w) as (Ps & Pu & Pa & Pp).
  unfold session_inv, validated. cbn [setSession currentStep loading formData session].
  rewrite Ps, Pu.
  repeat (split; [first [assumption | now apply Pa]|]).
  split; intros Hsub.
  - destruct (Hns Hsub) as (Hp & Hu & Hm & H0). rewrite (Pp Hp). auto.
  - exact (Hs Hsub).
Qed.

Lemma reachable_session_inv f : reachable f -> session_inv f.
Proof.
  induction 1 as [|f a w f' w' _ IH E|f fuel env n w c' w' _ IH E].
  - apply session_inv_initial.
  - exact (session_inv_dispatch _ _ _ _ _ IH E).
  - pose proof (session_inv_poll f fuel env n w IH) as H. now rewrite E in H.
Qed.

Lemma reachable_run actions : forall f w,
  reachable f -> reachable (fst (run actions f w)).
Proof.
  induction actions as [|a rest IH]; intros f w Hr; [exact Hr|].
  cbn [run]. destruct (dispatch a f w) as [[f'|e] w'] eqn:E; [|exact Hr].
  apply IH. exact (reachable_dispatch _ _ _ _ _ Hr E).
Qed.

Lemma filled_in_reachable : reachable filled_in.
Proof.
  exact (reachable_run fill_in initialForm morning reachable_initial
         <: reachable filled_in).
Qed.

(** X7: in every state of a session the step is between 1 and 6, whatever
    was clicked, and the progress bar shows between 16 and 100 percent,
    100 exactly on the last step. *)
Theorem reachable_step_range (f : SurveyForm) :
  reachable f ->
  (1 <= currentStep f <= totalSteps)%nat /\
  (16 <= F2Q (progressWidth f) <= 100)%Q /\
  (F2Q (progressWidth f) == 100 <-> currentStep f = totalSteps)%Q.
Proof.
  intros Hr. destruct (reachable_session_inv f Hr) as (Hstep & _).
  split; [exact Hstep|]. unfold progressWidth, totalSteps in *.
  destruct (currentStep f) as [|[|[|[|[|[|[|n]]]]]]]; try lia;
    (split; [split; vm_compute; discriminate|]);
    (split; [intros H; try reflexivity; vm_compute in H; discriminate H
            | intros H; try reflexivity; discriminate H]).
Qed.

Lemma reachable_step_range_witness :
  reachable filled_in /\ currentStep filled_in = 6%nat /\
  (F2Q (progressWidth filled_in) == 100)%Q.
Proof.
  pose proof filled_in_reachable as H.
  split; [exact H|]. split; [reflexivity|].
  exact (proj2 (proj2 (proj2 (reachable_step_range filled_in H))) eq_refl).
Defined.

(** X8: in every state of a session each Likert field is one of the ten
    values 1..10 (the form starts at 5 and only the ten buttons write a
    rating), the age is null or a number that is neither 0 nor NaN, and the
    preferred times are labels of the three buttons, each at most once. *)
Theorem reachable_form_data (f : SurveyForm) :
  reachable f ->
  SurveyResponse_inv (formData f) /\
  age_ok (formData f) /\
  NoDup (FormData.preferredTimes (formData f)) /\
  incl (FormData.preferredTimes (formData f)) ["Morning"; "Afternoon"; "Evening"].
Proof.
  intros Hr.
  destruct (reachable_session_inv f Hr) as (_ & _ & Hl & _ & [Hn Hi] & Ha & _).
  auto.
Qed.


Lemma reachable_form_data_witness :
  reachable filled_in /\
  FormData.agency (formData filled_in) = 9%float /\
  Likert (FormData.agency (formData filled_in)).
Proof.
  pose proof filled_in_reachable as H.
  split; [exact H|]. split; [reflexivity|].
  pose proof (proj1 (reachable_form_data filled_in H)) as Hl.
  unfold SurveyResponse_inv in Hl. rewrite Forall_forall in Hl.
  apply Hl. unfold likert_fields. cbn [In]. tauto.
Defined.

(** ** The form: what reaches the store *)

Lemma calculateCompleteness_filled formData :
  calculateCompleteness formData = (N2f (filled formData) / 11 * 100)%float.
Proof.
  unfold calculateCompleteness. change 0%float with (N2f 0).
  rewrite forEach_count by (cbn; lia). now rewrite filled_requiredFields.
Qed.

Lemma calculateAvgResponseLength_mean_length o :
  calculateAvgResponseLength o = mean_length (string_values o).
Proof.
  unfold calculateAvgResponseLength. rewrite lengths_string_values, length_map.
  unfold mean_length, float_sum. destruct (string_values o); reflexivity.
Qed.

Lemma filter_all {A} (p : A -> bool) (l : list A) : forallb p l = true -> filter p l = l.
Proof.
  induction l as [|a l IH]; cbn; [reflexivity|].
  intros H. apply andb_true_iff in H as [Ha Hl]. now rewrite Ha, IH.
Qed.

Lemma validated_last_step f :
  validated f -> currentStep f = totalSteps ->
  accepts_step 1 (formData f) = true /\ accepts_step 2 (formData f) = true /\
  accepts_step 3 (formData f) = true /\ accepts_step 5 (formData f) = true.
Proof.
  intros Hv Hs. unfold validated in Hv. rewrite Hs in Hv. unfold totalSteps in Hv.
  repeat split; apply Hv; lia.
Qed.

Lemma accepted_all_filled formData :
  accepts_step 1 formData = true -> accepts_step 2 formData = true ->
  accepts_step 3 formData = true -> accepts_step 5 formData = true ->
  forallb non_empty (checklist formData) = true.
Proof.
  unfold accepts_step, checklist. intros H1 H2 H3 H5.
  repeat match goal with
         | Ha : _ && _ = true |- _ => apply andb_true_iff in Ha; destruct Ha
         end.
  cbn [forallb].
  repeat match goal with
         | Hn : non_empty _ = true |- _ => rewrite Hn; clear Hn
         end.
  reflexivity.
Qed.

Lemma all_filled_complete formData :
  forallb non_empty (checklist formData) = true ->
  calculateCompleteness formData = 100%float /\
  calculateAvgResponseLength (freeResponses formData)
  = response_length_avg_spec (freeResponses formData).
Proof.
  intros Hall. split.
  - rewrite calculateCompleteness_filled. unfold filled. now rewrite (filter_all _ _ Hall).
  - rewrite calculateAvgResponseLength_mean_length. unfold response_length_avg_spec.
    rewrite filter_all; [reflexivity|].
    unfold checklist in Hall. cbn [forallb] in Hall.
    repeat match goal with
           | Ha : _ && _ = true |- _ => apply andb_true_iff in Ha; destruct Ha
           end.
    cbn [freeResponses string_values forallb].
    repeat match goal with
           | Hn : non_empty _ = true |- _ => rewrite Hn; clear Hn
           end.
    reflexivity.
Qed.

Lemma reachable_last_step_complete f :
  reachable f -> currentStep f = totalSteps ->
  calculateCompleteness (formData f) = 100%float.
Proof.
  intros Hr Hlast.
  destruct (reachable_session_inv f Hr) as (_ & _ & _ & Hv & _).
  destruct (validated_last_step f Hv Hlast) as (H1 & H2 & H3 & H5).
  exact (proj1 (all_filled_complete _ (accepted_all_filled _ H1 H2 H3 H5))).
Qed.

(** X9: on the last step of any session, the data have passed every step:
    the eleven required fields are filled, so completeness is exactly 100
    and the average answer length is the mean over non-empty answers; the
    email has the shape local@domain.tld; the four long answers have at
    least 20 characters. *)
Theorem reachable_last_step_validated (f : SurveyForm) :
  reachable f -> currentStep f = totalSteps ->
  calculateCompleteness (formData f) = 100%float /\
  calculateAvgResponseLength (freeResponses (formData f))
  = response_length_avg_spec (freeResponses (formData f)) /\
  test emailRegex (FormData.email (formData f)) = true /\
  (20 <= String.length (FormData.jobCareer (formData f)))%nat /\
  (20 <= String.length (FormData.lifeAchievements (formData f)))%nat /\
  (20 <= String.length (FormData.dreamBuilding (formData f)))%nat /\
  (20 <= String.length (FormData.communitySpace (formData f)))%nat.
Proof.
  intros Hr Hlast.
  destruct (reachable_session_inv f Hr) as (_ & _ & _ & Hv & _).
  destruct (validated_last_step f Hv Hlast) as (H1 & H2 & H3 & H5).
  destruct (all_filled_complete _ (accepted_all_filled _ H1 H2 H3 H5)) as [Hc Ha].
  split; [exact Hc|]. split; [exact Ha|].
  unfold accepts_step in H1, H2, H3.
  repeat match goal with
         | Ha : _ && _ = true |- _ => apply andb_true_iff in Ha; destruct Ha
         end.
  repeat match goal with
         | Hl : negb (_ <? 20)%float = true |- _ =>
             apply negb_true_iff, long_enough in Hl
         end.
  auto 10.
Qed.

Lemma reachable_last_step_validated_witness :
  reachable filled_in /\ currentStep filled_in = totalSteps /\
  calculateCompleteness (formData filled_in) = 100%float.
Proof.
  pose proof filled_in_reachable as H.
  split; [exact H|]. split; [reflexivity|].
  exact (proj1 (reachable_last_step_validated filled_in H eq_refl)).
Defined.

Lemma handleNext_inserts f w f' w' :
  handleNext f w = (Normal f', w') -> inserts w' = inserts w /\ db w' = db w.
Proof.
  unfold handleNext, bind. pose proof (validateCurrentStep_verdict f w) as Hv.
  destruct (accepts_step (currentStep f) (formData f)).
  - rewrite Hv. destruct (true && _); intros E; injection E as _ <-; auto.
  - destruct Hv as (msg & ->). cbn [andb]. intros E. injection E as _ <-. auto.
Qed.

(** X10: the only action that ever sends an insert is a click on Submit on
    the last step of a form not yet submitted; it sends exactly one, and the
    data it sends have completeness 100 and Likert values in 1..10. *)
Theorem only_submit_inserts (a : Action) (f f' : SurveyForm) (w w' : World) :
  reachable f ->
  dispatch a f w = (Normal f', w') ->
  inserts w' <> inserts w ->
  a = ClickSubmit /\ currentStep f = totalSteps /\ submitted (session f) = false /\
  inserts w' = S (inserts w) /\
  calculateCompleteness (formData f) = 100%float /\
  SurveyResponse_inv (formData f).
Proof.
  intros Hr E Hins. unfold dispatch in E.
  destruct (submitted (session f)) eqn:Hsub;
    [injection E as _ <-; congruence|].
  destruct a;
    try (repeat match type of E with
                | context [if ?b then _ else _] => destruct b eqn:?
                | context [match ?x with Some _ => _ | None => _ end] => destruct x eqn:?
                end;
         first [ injection E as _ <-; congruence
               | apply handleNext_inserts in E; destruct E; congruence ]).
  destruct ((currentStep f <? totalSteps)%nat || loading f) eqn:Hg;
    [injection E as _ <-; congruence|].
  apply orb_false_iff in Hg as [Hg _]. apply Nat.ltb_ge in Hg.
  destruct (reachable_session_inv f Hr) as (Hstep & _ & Hl & _).
  assert (Hlast : currentStep f = totalSteps) by lia.
  split; [reflexivity|]. split; [exact Hlast|]. split; [reflexivity|].
  split; [|split; [exact (reachable_last_step_complete f Hr Hlast) | exact Hl]].
  unfold handleSubmit in E. rewrite Hlast in E. cbn [Nat.eqb totalSteps negb] in E.
  revert E. cbv [bind try_catch emit ret]. cbn [db clock dates trace].
  destruct (fault (db w)) as [error|] eqn:Hf.
  - rewrite submitUserForm_refused with (error := error) by exact Hf.
    intros E. injection E as _ <-. reflexivity.
  - destruct (submitUserForm_stores (formData f)
                {| db := db w; clock := clock w; dates := dates w;
                   trace := console_log "Submitting form data:" :: trace w |} Hf)
      as (row & E' & _).
    cbn [db clock dates trace] in E'. rewrite E'.
    intros E. injection E as _ <-. reflexivity.
Qed.

Lemma submit_filled_in :
  dispatch ClickSubmit filled_in morning = (Normal submitted_form, submitted_world).
Proof. vm_compute. reflexivity. Qed.

Lemma only_submit_inserts_witness :
  inserts submitted_world <> inserts morning /\
  calculateCompleteness (formData filled_in) = 100%float.
Proof.
  assert (Hi : inserts submitted_world <> inserts morning) by (vm_compute; discriminate).
  split; [exact Hi|].
  exact (proj1 (proj2 (proj2 (proj2 (proj2
           (only_submit_inserts ClickSubmit filled_in submitted_form morning
              submitted_world filled_in_reachable submit_filled_in Hi)))))).
Defined.

(** X11: a click on Submit that succeeds stores one record, not yet eligible
    for matching and with completeness 100, and arms the polling: the
    component holds the id of that record, [processing] is on and the
    attempt count is 0. *)
Theorem submit_success_arms_polling (f f' : SurveyForm) (w w' : World) :
  reachable f ->
  submitted (session f) = false ->
  dispatch ClickSubmit f w = (Normal f', w') ->
  submitted (session f') = true ->
  exists row,
    table (db w') = table (db w) ++ [row] /\
    userId (session f') = Some (id row) /\
    processing (session f') = true /\ pollAttempts (session f') = 0%nat /\
    matchData (session f') = None /\ loading f' = false /\
    user_matches row = None /\
    Quality.completeness (UserData.quality_metrics (data row)) = 100%float.
Proof.
  intros Hr Hsub E Hdone. unfold dispatch in E. rewrite Hsub in E.
  destruct ((currentStep f <? totalSteps)%nat || loading f) eqn:Hg;
    [injection E as <- _; congruence|].
  apply orb_false_iff in Hg as [Hg _]. apply Nat.ltb_ge in Hg.
  destruct (reachable_session_inv f Hr) as (Hstep & _ & _ & _ & _ & _ & _ & Hns & _).
  destruct (Hns Hsub) as (_ & _ & Hmd & Hpa).
  assert (Hlast : currentStep f = totalSteps) by lia.
  pose proof (handleSubmit_run f w Hlast) as Hrun.
  destruct (fault (db w)).
  - destruct Hrun as (w1 & E1 & _). rewrite E1 in E. injection E as <- _.
    cbn in Hdone. congruence.
  - destruct Hrun as (row & w1 & E1 & Hdb & _ & Hum & _ & _ & Hq).
    rewrite E1 in E. injection E as <- <-.
    exists row. rewrite Hdb, Hq. cbn [Quality.completeness].
    rewrite (reachable_last_step_complete f Hr Hlast).
    cbn [table setLoading setSession session userId processing pollAttempts
           matchData loading].
    auto 10.
Qed.

Lemma submit_success_arms_polling_witness :
  exists row,
    table (db submitted_world) = table (db morning) ++ [row] /\
    userId (session submitted_form) = Some (id row).
Proof.
  destruct (submit_success_arms_polling filled_in submitted_form morning submitted_world
              filled_in_reachable eq_refl submit_filled_in eq_refl)
    as (row & Ht & Hu & _).
  exists row. split; [exact Ht | exact Hu].
Defined.



(** ** The store seen through the queries *)

Lemma getUserById_run userId w :
  getUserById userId w
  = match store_single userId (db w) with
    | inl row => (Normal row, poll_world w (db w) [request (SelectById userId)])
    | inr error =>
        (Throw (Rejected error),
         poll_world w (db w)
           [console_error "Error fetching user:"; request (SelectById userId)])
    end.
Proof.
  cbv [getUserById select_single bind emit ret throw poll_world].
  cbn [db clock dates trace app].
  destruct (store_single userId (db w)); reflexivity.
Qed.

Lemma store_single_found userId s row :
  store_single userId s = inl row ->
  fault s = None /\ filter (fun r => Nat.eqb (id r) userId) (table s) = [row].
Proof.
  unfold store_single. destruct (fault s); [discriminate|].
  destruct (filter _ (table s)) as [|r [|r' l]]; try discriminate.
  intros E. injection E as ->. auto.
Qed.

(** X13: [getUserById] returns a row exactly when the store answers and
    holds one single row with that id; the row returned has the id asked
    for and is a row of the table.  Otherwise it throws the store's own
    error object and logs it: the error the store reported when a request
    fails, the 'no single row' error when the store answers with no such
    row or with several.  Either way the store is left as it was and one
    read is issued. *)
Theorem getUserById_single_row (userId : uuid) (w : World) :
  exists res w',
    getUserById userId w = (res, w') /\
    db w' = db w /\ reads w' = S (reads w) /\ inserts w' = inserts w /\
    (forall row, res = Normal row <->
       fault (db w) = None
       /\ filter (fun r => Nat.eqb (id r) userId) (table (db w)) = [row]) /\
    (forall row, res = Normal row -> id row = userId /\ In row (table (db w))) /\
    (forall e, res = Throw e ->
       logged_error "Error fetching user:" w' = true /\
       exists error,
         e = Rejected error /\
         store_single userId (db w) = inr error /\
         match fault (db w) with
         | Some reported => error = reported
         | None =>
             error = no_single_row /\
             List.length (filter (fun r => Nat.eqb (id r) userId) (table (db w))) <> 1%nat
         end).
Proof.
  rewrite getUserById_run.
  destruct (store_single userId (db w)) as [row|error] eqn:Es;
    eexists; eexists; (split; [reflexivity|]);
    (split; [reflexivity|]); (split; [reflexivity|]); (split; [reflexivity|]).
  - destruct (store_single_found _ _ _ Es) as [Hf Hflt]. split; [|split].
    + intros r. split.
      * intros E. injection E as <-. auto.
      * intros [_ E]. rewrite Hflt in E. now injection E as <-.
    + intros r E. injection E as <-.
      assert (Hin : In row (filter (fun r => Nat.eqb (id r) userId) (table (db w))))
        by (rewrite Hflt; now left).
      apply filter_In in Hin as [Hin Hid]. apply Nat.eqb_eq in Hid. auto.
    + intros e E. discriminate E.
  - split; [|split].
    + intros r. split; [discriminate|].
      intros [Hf Hflt]. unfold store_single in Es. rewrite Hf, Hflt in Es. discriminate Es.
    + intros r E. discriminate E.
    + intros e E. injection E as <-. split; [reflexivity|].
      exists error. split; [reflexivity|]. split; [reflexivity|].
      unfold store_single in Es. destruct (fault (db w)) as [reported|].
      * now injection Es as <-.
      * destruct (filter _ (table (db w))) as [|r [|r' l]];
          try discriminate Es; injection Es as <-; split; try reflexivity;
          cbn; lia.
Qed.

Lemma ids_fresh_no_row s :
  ids_fresh s -> filter (fun r => Nat.eqb (id r) (next_id s)) (table s) = [].
Proof.
  unfold ids_fresh. induction 1 as [|r l Hr _ IH]; cbn; [reflexivity|].
  assert (E : Nat.eqb (id r) (next_id s) = false) by (apply Nat.eqb_neq; lia).
  now rewrite E.
Qed.

(** X14: a record just stored is read back: on a store whose ids are all
    below its next id, a successful [submitUserForm] followed by
    [getUserById] of the returned id gives the very row that was returned,
    and the ids of the new store are again below its next id. *)
Theorem submit_then_getUserById (formData : FormData.t) (w w' : World) (row : Row) :
  ids_fresh (db w) ->
  submitUserForm formData w = (Normal row, w') ->
  (exists w'', getUserById (id row) w' = (Normal row, w'')) /\
  ids_fresh (db w') /\
  next_id (db w') = S (id row).
Proof.
  intros Hfresh E. destruct (fault (db w)) as [error|] eqn:Hf.
  { rewrite (submitUserForm_refused _ _ _ Hf) in E. discriminate E. }
  destruct (submitUserForm_stores formData w Hf) as (r & E' & Hid & _).
  rewrite E' in E. injection E as -> <-. cbn [db].
  split; [|split].
  - rewrite getUserById_run. cbn [db]. unfold store_single. cbn [fault table].
    rewrite filter_app, Hid, (ids_fresh_no_row _ Hfresh). cbn [filter app].
    rewrite Hid, Nat.eqb_refl. eexists. reflexivity.
  - unfold ids_fresh in *. cbn [table next_id]. apply Forall_app. split.
    + eapply Forall_impl; [|exact Hfresh]. cbn. intros; lia.
    + constructor; [lia | constructor].
  - cbn [next_id]. now rewrite Hid.
Qed.

Lemma submit_then_getUserById_witness :
  ids_fresh (db morning) /\
  exists row w' w'',
    submitUserForm sample_response morning = (Normal row, w') /\
    getUserById (id row) w' = (Normal row, w'').
Proof.
  assert (Hf : ids_fresh (db morning)) by constructor.
  split; [exact Hf|].
  eexists. eexists.
  destruct (proj1 (submit_then_getUserById sample_response morning _ _ Hf eq_refl))
    as (w'' & E).
  exists w''. split; [reflexivity | exact E].
Defined.

Lemma insert_ordered_latest row r l :
  UserData.created_at (data r) < UserData.created_at (data row) ->
  insert_ordered false r (row :: l) = row :: insert_ordered false r l.
Proof.
  intros Hlt. cbn [insert_ordered]. unfold created_at_le.
  assert (E : (UserData.created_at (data row) <=? UserData.created_at (data r)) = false)
    by (apply Z.leb_gt; exact Hlt).
  now rewrite E.
Qed.

Lemma order_latest_first row l :
  Forall (fun r => UserData.created_at (data r) < UserData.created_at (data row)) l ->
  exists rest, order_created_at false (l ++ [row]) = row :: rest.
Proof.
  induction 1 as [|r l Hr _ (rest & IH)].
  - now exists [].
  - unfold order_created_at in *. cbn [app fold_right]. rewrite IH.
    rewrite insert_ordered_latest by exact Hr. eauto.
Qed.

(** X15: how submission and listing compose.  If the clock reading taken
    for [created_at] is later than the [created_at] of every stored row,
    then after a successful submission [getAllRealUsers] returns the new
    record first. *)
Theorem submitted_user_listed_first (formData : FormData.t) (w w' : World) (row : Row) :
  Forall (fun r => UserData.created_at (data r) < clock w (S (dates w))) (table (db w)) ->
  submitUserForm formData w = (Normal row, w') ->
  exists rest w'', getAllRealUsers w' = (Normal (row :: rest), w'').
Proof.
  intros Hlater E. destruct (fault (db w)) as [error|] eqn:Hf.
  { rewrite (submitUserForm_refused _ _ _ Hf) in E. discriminate E. }
  destruct (submitUserForm_stores formData w Hf)
    as (r & E' & _ & _ & _ & _ & _ & (_ & Hc & _) & _).
  destruct (submitUserForm_accepted formData w Hf)
    as (r0 & w0 & E0 & _ & _ & _ & _ & _ & _ & _ & Hsyn & _).
  rewrite E' in E0. injection E0 as <- _.
  rewrite E' in E. injection E as -> <-.
  rewrite getAllRealUsers_run. cbn [db]. unfold store_select. cbn [fault table].
  rewrite filter_app. cbn [filter]. rewrite Hsyn. cbn [Bool.eqb].
  destruct (order_latest_first row
              (filter (fun r => Bool.eqb (UserData.is_synthetic (data r)) false)
                      (table (db w)))) as (rest & ->).
  - rewrite Hc. apply Forall_forall. intros x Hx. apply filter_In in Hx as [Hx _].
    rewrite Forall_forall in Hlater. now apply Hlater.
  - eexists. eexists. reflexivity.
Qed.

Lemma submitted_user_listed_first_witness :
  exists row w' rest w'',
    submitUserForm sample_response evening = (Normal row, w') /\
    getAllRealUsers w' = (Normal (row :: rest), w'').
Proof.
  eexists. eexists.
  assert (Hl : Forall (fun r => UserData.created_at (data r)
                                < clock evening (S (dates evening)))
                      (table (db evening))).
  { repeat constructor. }
  destruct (submitted_user_listed_first sample_response evening _ _ Hl eq_refl)
    as (rest & w'' & E).
  exists rest, w''. split; [reflexivity | exact E].
Defined.

(** ** Polling against any environment *)

Lemma timers_poll_world w s events :
  timers (poll_world w s events)
  = (List.length (filter (fun e => match e with setTimeout _ => true | _ => false end)
                         events) + timers w)%nat.
Proof. unfold timers, poll_world. cbn [trace]. now rewrite filter_app, length_app. Qed.

Lemma inserts_poll_world w s events :
  inserts (poll_world w s events)
  = (List.length (filter (fun e => match e with request Insert => true | _ => false end)
                         events) + inserts w)%nat.
Proof. unfold inserts, poll_world. cbn [trace]. now rewrite filter_app, length_app. Qed.

Ltac count_events :=
  rewrite ?reads_poll_world, ?timers_poll_world, ?inserts_poll_world;
  cbn [filter List.length Nat.add].

(** X16: whatever the rest of the system does to the store, a polling run
    sets one timer per read, reads at most [maxAttempts + 1] times less the
    attempts already counted, never writes (the store is exactly what the
    environment made of it, and no insert is sent). *)
Theorem poll_bounded_read_only (fuel : nat) (env : Environment) (n : nat)
        (c : Component) (w : World) :
  (pollAttempts c <= maxAttempts)%nat ->
  exists k,
    reads (snd (poll fuel env n c w)) = (reads w + k)%nat /\
    timers (snd (poll fuel env n c w)) = (timers w + k)%nat /\
    (k + pollAttempts c <= maxAttempts + 1)%nat /\
    db (snd (poll fuel env n c w)) = evolve env n k (db w) /\
    inserts (snd (poll fuel env n c w)) = inserts w.
Proof.
  unfold maxAttempts.
  revert n c w. induction fuel as [|fuel IH]; intros n c w Hc.
  { exists 0%nat. cbn. repeat split; try reflexivity; lia. }
  destruct (processing c) eqn:Hp;
    [|rewrite poll_stopped by exact Hp; exists 0%nat; cbn;
      repeat split; try reflexivity; lia].
  destruct (userId c) as [uid|] eqn:Hu;
    [|cbn [poll]; rewrite Hp, Hu; exists 0%nat; cbn;
      repeat split; try reflexivity; lia].
  rewrite (poll_step _ _ _ _ _ uid Hp Hu), checkForMatches_run.
  cbn [db poll_world].
  destruct (store_single uid (env n (db w))) as [userData|error];
    [destruct (user_matches userData);
     [|unfold maxAttempts; destruct (20 <=? pollAttempts c)%nat eqn:Hmax]|];
    try (rewrite poll_stopped by reflexivity; exists 1%nat; cbn [snd];
         count_events; cbn [db poll_world evolve];
         repeat split; try reflexivity; lia).
  apply Nat.leb_gt in Hmax.
  match goal with
  | |- context [poll fuel env (S n) ?c' ?w'] =>
      destruct (IH (S n) c' w') as (k & Hr & Ht & Hk & Hdb & Hi);
      [cbn [setPollAttempts pollAttempts]; lia|]
  end.
  cbn [setPollAttempts pollAttempts] in Hk.
  exists (S k). rewrite Hr, Ht, Hdb, Hi. count_events.
  cbn [db poll_world evolve]. repeat split; try reflexivity; lia.
Qed.

Lemma poll_bounded_read_only_witness :
  reads (snd (poll 100 outage_at_third 0 just_submitted waiting)) = 3%nat /\
  exists k,
    reads (snd (poll 100 outage_at_third 0 just_submitted waiting))
    = (reads waiting + k)%nat /\ (k <= 21)%nat.
Proof.
  split; [vm_compute; reflexivity|].
  destruct (poll_bounded_read_only 100 outage_at_third 0 just_submitted waiting)
    as (k & Hr & _ & Hk & _); [cbn; unfold maxAttempts; lia|].
  exists k. split; [exact Hr|]. cbn in Hk. unfold maxAttempts in Hk. lia.
Defined.

(** X17: a match is delivered as soon as it is there, up to the last read.
    If the record stays readable and unmatched during the first [k] timers
    and carries a match when the next timer fires, with [k] at most
    [maxAttempts], the run ends matched with that match after exactly
    [k + 1] reads. *)
Theorem poll_delivers_match (env : Environment) (uid : uuid) (m : MatchData.t) (k : nat) :
  forall fuel n c w,
    processing c = true -> userId c = Some uid ->
    (pollAttempts c + k <= maxAttempts)%nat -> (k < fuel)%nat ->
    (forall i, (i < k)%nat ->
       exists r, store_single uid (evolve env n (S i) (db w)) = inl r
                 /\ user_matches r = None) ->
    (exists r, store_single uid (evolve env n (S k) (db w)) = inl r
               /\ user_matches r = Some m) ->
    matchData (fst (poll fuel env n c w)) = Some m /\
    processing (fst (poll fuel env n c w)) = false /\
    reads (snd (poll fuel env n c w)) = (reads w + k + 1)%nat /\
    alerted (snd (poll fuel env n c w)) = alerted w.
Proof.
  induction k as [|k IH]; intros fuel n c w Hp Hu Hk Hfuel Hbefore Hthen;
    (destruct fuel as [|fuel]; [lia|]);
    rewrite (poll_step _ _ _ _ _ uid Hp Hu), checkForMatches_run;
    cbn [db poll_world].
  - destruct Hthen as (r & Hr & Hm). cbn [evolve] in Hr. rewrite Hr, Hm.
    rewrite poll_stopped by reflexivity. cbn [fst snd].
    rewrite !reads_poll_world, !alerted_poll_world. cbn.
    repeat split; lia.
  - destruct (Hbefore 0%nat ltac:(lia)) as (r & Hr & Hm). cbn [evolve] in Hr.
    rewrite Hr, Hm.
    destruct (maxAttempts <=? pollAttempts c)%nat eqn:Hmax;
      [apply Nat.leb_le in Hmax; lia|].
    set (c1 := setPollAttempts _ c). set (w1 := poll_world (poll_world w _ _) _ _).
    assert (Hdb : db w1 = env n (db w)) by reflexivity.
    destruct (IH fuel (S n) c1 w1) as (H1 & H2 & H3 & H4).
    + exact Hp.
    + exact Hu.
    + subst c1. cbn [setPollAttempts pollAttempts]. lia.
    + lia.
    + intros i Hi. rewrite Hdb. exact (Hbefore (S i) ltac:(lia)).
    + rewrite Hdb. exact Hthen.
    + rewrite H1, H2, H3, H4. subst w1.
      rewrite !reads_poll_world, !alerted_poll_world. cbn.
      repeat split; lia.
Qed.

Lemma poll_delivers_match_witness :
  matchData (fst (poll 50 matched_at_third 0 just_submitted waiting)) = Some one_match /\
  reads (snd (poll 50 matched_at_third 0 just_submitted waiting)) = 3%nat.
Proof.
  destruct (poll_delivers_match matched_at_third 7%nat one_match 2
              50 0%nat just_submitted waiting eq_refl eq_refl)
    as (Hm & _ & Hr & _).
  - cbn. unfold maxAttempts. lia.
  - lia.
  - intros [|[|i]] Hi; [eexists; split; reflexivity .. | lia].
  - eexists. split; reflexivity.
  - split; [exact Hm | exact Hr].
Defined.

(** X18: what every session keeps of the polling state: the attempt count
    never exceeds 20; before a submission nothing is polled (processing
    off, no user id, no match, count 0); and polling is on only after a
    submission, with the id of the stored record at hand. *)
Theorem reachable_polling_state (f : SurveyForm) :
  reachable f ->
  (pollAttempts (session f) <= maxAttempts)%nat /\
  (submitted (session f) = false ->
   processing (session f) = false /\ userId (session f) = None /\
   matchData (session f) = None /\ pollAttempts (session f) = 0%nat) /\
  (processing (session f) = true ->
   submitted (session f) = true /\ userId (session f) <> None).
Proof.
  intros Hr.
  destruct (reachable_session_inv f Hr) as (_ & _ & _ & _ & _ & _ & Hpa & Hns & Hs).
  split; [exact Hpa|]. split; [exact Hns|].
  intros Hp. destruct (submitted (session f)) eqn:Hsub.
  - split; [reflexivity | now apply Hs].
  - destruct (Hns eq_refl) as (Hp' & _). congruence.
Qed.

Lemma reachable_polling_state_witness :
  reachable submitted_form /\
  processing (session submitted_form) = true /\
  userId (session submitted_form) <> None.
Proof.
  assert (Hr : reachable submitted_form)
    by exact (reachable_dispatch _ _ _ _ _ filled_in_reachable submit_filled_in).
  split; [exact Hr|]. split; [reflexivity|].
  exact (proj2 (proj2 (proj2 (reachable_polling_state _ Hr)) eq_refl)).
Defined.

(** ** More on the metrics *)

Lemma percent_of_11_increasing :
  forallb (fun a => forallb (fun b =>
             if (a <? b)%nat
             then match Qcompare (percent_of_11 a) (percent_of_11 b) with
                  | Lt => true | _ => false end
             else true) (seq 0 12)) (seq 0 12) = true.
Proof. vm_compute. reflexivity. Qed.

Lemma percent_of_11_lt a b :
  (a < b <= 11)%nat -> (percent_of_11 a < percent_of_11 b)%Q.
Proof.
  intros H. pose proof percent_of_11_increasing as Hall.
  rewrite forallb_forall in Hall. specialize (Hall a ltac:(apply in_seq; lia)).
  rewrite forallb_forall in Hall. specialize (Hall b ltac:(apply in_seq; lia)).
  assert (E : (a <? b)%nat = true) by (apply Nat.ltb_lt; lia). rewrite E in Hall.
  rewrite Qlt_alt. destruct (Qcompare _ _); congruence.
Qed.

Lemma filled_le_11 formData : (filled formData <= 11)%nat.
Proof. pose proof (filled_missing formData). lia. Qed.

(** X19: completeness is a finite percentage between 0 and 100 that grows
    strictly with the number of filled required fields; it is 100 exactly
    when none is missing and 0 exactly when all are. *)
Theorem calculateCompleteness_scale (formData other : FormData.t) :
  (0 <= F2Q (calculateCompleteness formData) <= 100)%Q /\
  ((filled formData < filled other)%nat ->
   (F2Q (calculateCompleteness formData) < F2Q (calculateCompleteness other))%Q) /\
  (calculateCompleteness formData = 100%float <-> missing formData = 0%nat) /\
  (calculateCompleteness formData = 0%float <-> filled formData = 0%nat).
Proof.
  rewrite !calculateCompleteness_filled.
  pose proof (filled_le_11 formData) as Hf. pose proof (filled_le_11 other) as Ho.
  pose proof (filled_missing formData) as Hm.
  fold (percent_of_11 (filled formData)). fold (percent_of_11 (filled other)).
  assert (H0 : percent_of_11 0 = 0%Q) by (vm_compute; reflexivity).
  assert (H11 : percent_of_11 11 = 100%Q) by (vm_compute; reflexivity).
  split; [|split; [|split]].
  - split.
    + destruct (filled formData) as [|n] eqn:E; [rewrite H0; discriminate|].
      rewrite <- H0. apply Qlt_le_weak, percent_of_11_lt. lia.
    + destruct (Nat.eq_dec (filled formData) 11) as [->|Hne];
        [rewrite H11; discriminate|].
      rewrite <- H11. apply Qlt_le_weak, percent_of_11_lt. lia.
  - intros Hlt. apply percent_of_11_lt. lia.
  - split.
    + intros E. destruct (Nat.eq_dec (filled formData) 11) as [E11|Hne]; [lia|].
      exfalso. assert (Hlt : (percent_of_11 (filled formData) < percent_of_11 11)%Q)
        by (apply percent_of_11_lt; lia).
      unfold percent_of_11 in Hlt at 1. rewrite E in Hlt. rewrite H11 in Hlt.
      vm_compute in Hlt. discriminate Hlt.
    + intros E. assert (E11 : filled formData = 11%nat) by lia. now rewrite E11.
  - split.
    + intros E. destruct (filled formData) as [|n] eqn:En; [reflexivity|].
      exfalso. assert (Hlt : (percent_of_11 0 < percent_of_11 (S n))%Q)
        by (apply percent_of_11_lt; lia).
      unfold percent_of_11 in Hlt at 2. rewrite E in Hlt. rewrite H0 in Hlt.
      vm_compute in Hlt. discriminate Hlt.
    + intros E. now rewrite E.
Qed.

Lemma calculateCompleteness_scale_witness :
  (filled three_missing < filled sample_response)%nat /\
  (F2Q (calculateCompleteness three_missing)
   < F2Q (calculateCompleteness sample_response))%Q.
Proof.
  assert (H : (filled three_missing < filled sample_response)%nat) by (cbn; lia).
  split; [exact H|].
  exact (proj1 (proj2 (calculateCompleteness_scale three_missing sample_response)) H).
Defined.

(** X20: the consistency score is 100 exactly when the three checks pass
    and 0 exactly when none does. *)
Theorem calculateConsistency_extremes (mc : Mc.t) :
  (calculateConsistency mc = 100%float
   <-> forallb (check_passes mc) alignment_pairs = true) /\
  (calculateConsistency mc = 0%float
   <-> existsb (check_passes mc) alignment_pairs = false).
Proof.
  unfold calculateConsistency, alignment_pairs, check_passes.
  cbn [forallb existsb filter fst snd List.length].
  destruct (abs (Mc.start_village mc - Mc.interest_off_grid mc) <=? 3)%float,
           (abs (Mc.spirituality mc - Mc.interest_spiritual mc) <=? 3)%float,
           (abs (Mc.ambition mc - Mc.interest_business mc) <=? 3)%float;
    cbn [filter List.length andb orb];
    (split; split; intros H; try reflexivity; try discriminate H;
     exfalso; revert H;
     first [ apply (float_neq_by (fun x => PrimFloat.eqb x 100))
           | apply (float_neq_by (fun x => PrimFloat.eqb x 0)) ];
     vm_compute; discriminate).
Qed.

Lemma mean_in_range :
  Forall (fun s => (1 <= F2Q (Z2f s / 3)%float <= 10)%Q) (Zrange 3 28) /\
  Forall (fun s => (1 <= F2Q (Z2f s / 7)%float <= 10)%Q) (Zrange 7 64).
Proof.
  split; enumerate_range;
    repeat (constructor; [split; vm_compute; discriminate|]); constructor.
Qed.

Lemma mean_of_equal :
  Forall (fun k => (Z2f (k + k + k) / 3)%float = Z2f k
                   /\ (Z2f (k + k + k + k + k + k + k) / 7)%float = Z2f k)
         (Zrange 1 10).
Proof.
  enumerate_range. repeat (constructor; [split; reflexivity|]). constructor.
Qed.

(** X21: for a response whose Likert fields are integers in [1,10], the two
    derived scores lie in [1,10] as well; and when their inputs are all
    equal the score is exactly that common value (the initial form, all 5,
    scores 5 and 5). *)
Theorem derived_scores_in_scale (formData : FormData.t) :
  SurveyResponse_inv formData ->
  let a := attributeScores formData in
  (1 <= F2Q (Attr.readiness_score a) <= 10)%Q /\
  (1 <= F2Q (Attr.community_interest_avg a) <= 10)%Q /\
  (FormData.preparedness formData = FormData.agency formData ->
   FormData.locationFreedom formData = FormData.agency formData ->
   Attr.readiness_score a = FormData.agency formData) /\
  (Forall (fun x => x = FormData.offGridVillage formData)
          [ FormData.nomadicTribe formData; FormData.businessStartup formData;
            FormData.wellnessCenter formData; FormData.spiritualCenter formData;
            FormData.techHub formData; FormData.startupNation formData ] ->
   Attr.community_interest_avg a = FormData.offGridVillage formData).
Proof.
  intros Hinv a. subst a. unfold attributeScores.
  cbn [Attr.readiness_score Attr.community_interest_avg].
  unfold SurveyResponse_inv, likert_fields in Hinv. split_Forall.
  repeat match goal with
         | H : Likert _ |- _ =>
             apply Likert_Z2f in H; let k := fresh "k" in
             let E := fresh "E" in destruct H as (k & ? & E)
         end.
  destruct mean_in_range as [Hthirds Hsevenths].
  split; [|split; [|split]].
  - use_Z2f. rewrite !Z2f_add by lia. apply (Forall_Zrange _ 3 28 Hthirds). lia.
  - use_Z2f. rewrite !Z2f_add by lia. apply (Forall_Zrange _ 7 64 Hsevenths). lia.
  - intros -> ->.
    repeat match goal with
           | E : FormData.agency formData = Z2f ?k |- _ =>
               rewrite E; rewrite !Z2f_add by lia;
               exact (proj1 (Forall_Zrange _ 1 10 mean_of_equal k ltac:(lia)))
           end.
  - intros Hall. split_Forall.
    repeat match goal with
           | Hx : ?x = FormData.offGridVillage formData |- _ => rewrite Hx; clear Hx
           end.
    repeat match goal with
           | E : FormData.offGridVillage formData = Z2f ?k |- _ =>
               rewrite E; rewrite !Z2f_add by lia;
               exact (proj2 (Forall_Zrange _ 1 10 mean_of_equal k ltac:(lia)))
           end.
Qed.

Lemma initialFormData_inv : SurveyResponse_inv initialFormData.
Proof.
  unfold SurveyResponse_inv, likert_fields, initialFormData.
  repeat (apply Forall_cons; [on_scale|]). apply Forall_nil.
Qed.

Lemma derived_scores_in_scale_witness :
  Attr.readiness_score (attributeScores initialFormData) = 5%float.
Proof.
  exact (proj1 (proj2 (proj2 (derived_scores_in_scale initialFormData initialFormData_inv)))
           eq_refl eq_refl).
Defined.

Lemma string_values_app o1 o2 :
  string_values (o1 ++ o2) = (string_values o1 ++ string_values o2)%list.
Proof.
  induction o1 as [|[key val] o1 IH]; [reflexivity|].
  cbn [app string_values]. destruct val; cbn [app]; now rewrite IH.
Qed.

(** X22: only string-valued properties count in the average answer length:
    a property holding anything else (null, a number, a list) changes
    neither the sum nor the number of answers, wherever it stands. *)
Theorem calculateAvgResponseLength_ignores_non_strings
        (before after : JSObject) (key : string) (value : JSValue) :
  typeof_string value = false ->
  calculateAvgResponseLength (before ++ (key, value) :: after)
  = calculateAvgResponseLength (before ++ after).
Proof.
  intros Hv. rewrite !calculateAvgResponseLength_mean_length, !string_values_app.
  destruct value; try discriminate Hv; reflexivity.
Qed.

Lemma calculateAvgResponseLength_ignores_non_strings_witness :
  calculateAvgResponseLength
    (freeResponses one_answer ++ [("preferred_times", JSArray ["Evening"])])
  = 0.5%float.
Proof.
  rewrite (calculateAvgResponseLength_ignores_non_strings
             (freeResponses one_answer) [] "preferred_times" (JSArray ["Evening"]) eq_refl).
  reflexivity.
Defined.
